(** * Static-shape rewriting of the Kokoro ONNX graph

    A shallow embedding of [tools/qnn/convert_kokoro_static.py]: the ONNX
    messages the script reads and mutates, the script's functions as
    programs over a world of files and printed lines, and the properties
    of the rewrite.

    Conventions of the embedding.
    - A protobuf message is a record with the fields the script reads or
      writes; fields it never touches (doc strings, denotations, metadata)
      travel unchanged with the message and are left out.
    - The script mutates the loaded model in place and returns the same
      object; here every function takes the model and returns the mutated
      model.
    - A raise abandons the model: [main] catches nothing but the
      checker's exception, so nobody sees the half-mutated object.
    - Python's [int] is [Z].  A stored dimension is a signed 64-bit field
      and protobuf refuses a value outside it; numpy refuses a negative
      length, a length or a byte size beyond the signed 64-bit range, and
      an array the machine has no room for.
    - The host is a parameter: which file a path names ([resolve]), which
      arrays fit in memory ([fits]), and the onnx checker
      ([check_model]).  A file is readable and writable wherever its
      directory exists. *)

From Stdlib Require Import ZArith String Ascii List Lia DecimalString.
From stdpp Require Import gmap strings list fin_maps.
From Equations Require Import Equations.

Local Open Scope string_scope.
Local Open Scope list_scope.
Local Open Scope Z_scope.

(** ** The graph model (ONNX messages) *)

(** [TensorShapeProto.Dimension]: the [oneof value] holds a literal size, a
    symbolic name, or nothing. *)
Inductive Dimension :=
| DimValue (v : Z)
| DimParam (p : string)
| DimUnset.

(** Reading a [oneof] member that is not the one set yields the default. *)
Definition dim_value (d : Dimension) : Z :=
  match d with DimValue v => v | _ => 0 end.

Definition dim_param (d : Dimension) : string :=
  match d with DimParam p => p | _ => "" end.

(** [ValueInfoProto], read through [.type.tensor_type]. *)
Record ValueInfoProto := mkValueInfo {
  vi_name : string;
  elem_type : Z;
  shape_dim : list Dimension
}.

(** [TensorProto] as [numpy_helper.from_array] fills it: element type, dims
    and the little-endian bytes of the elements. *)
Record TensorProto := mkTensor {
  t_name : string;
  data_type : Z;
  dims : list Z;
  raw_data : list Z
}.

Inductive AttributeValue :=
| AttrInt (i : Z)
| AttrInts (l : list Z)
| AttrString (s : string).

Record NodeProto := mkNode {
  op_type : string;
  node_input : list string;
  node_output : list string;
  attribute : list (string * AttributeValue)
}.

Record GraphProto := mkGraph {
  graph_node : list NodeProto;
  graph_initializer : list TensorProto;
  graph_input : list ValueInfoProto;
  graph_output : list ValueInfoProto
}.

Record ModelProto := mkModel {
  ir_version : Z;
  opset_import : list (string * Z);
  graph : GraphProto
}.

#[global] Instance Dimension_eq_dec : EqDecision Dimension.
Proof. solve_decision. Defined.
#[global] Instance ValueInfoProto_eq_dec : EqDecision ValueInfoProto.
Proof. solve_decision. Defined.
#[global] Instance TensorProto_eq_dec : EqDecision TensorProto.
Proof. solve_decision. Defined.
#[global] Instance AttributeValue_eq_dec : EqDecision AttributeValue.
Proof. solve_decision. Defined.
#[global] Instance NodeProto_eq_dec : EqDecision NodeProto.
Proof. solve_decision. Defined.

(** In-place field updates. *)
Definition set_shape (d : list Dimension) (vi : ValueInfoProto) : ValueInfoProto :=
  {| vi_name := vi_name vi; elem_type := elem_type vi; shape_dim := d |}.

Definition set_node_output (o : list string) (n : NodeProto) : NodeProto :=
  {| op_type := op_type n; node_input := node_input n; node_output := o;
     attribute := attribute n |}.

Definition set_graph_node (ns : list NodeProto) (g : GraphProto) : GraphProto :=
  {| graph_node := ns; graph_initializer := graph_initializer g;
     graph_input := graph_input g; graph_output := graph_output g |}.

Definition set_graph_initializer (ts : list TensorProto) (g : GraphProto) : GraphProto :=
  {| graph_node := graph_node g; graph_initializer := ts;
     graph_input := graph_input g; graph_output := graph_output g |}.

Definition set_graph_input (vs : list ValueInfoProto) (g : GraphProto) : GraphProto :=
  {| graph_node := graph_node g; graph_initializer := graph_initializer g;
     graph_input := vs; graph_output := graph_output g |}.

Definition set_graph_output (vs : list ValueInfoProto) (g : GraphProto) : GraphProto :=
  {| graph_node := graph_node g; graph_initializer := graph_initializer g;
     graph_input := graph_input g; graph_output := vs |}.

Definition set_graph (g : GraphProto) (m : ModelProto) : ModelProto :=
  {| ir_version := ir_version m; opset_import := opset_import m; graph := g |}.

(** ** The world: files and standard output *)

(** One entry of a reported shape: an [int] or a [str]. *)
Inductive ShapeEntry :=
| SInt (z : Z)
| SStr (s : string).

(** A printed line is kept as the pieces of its f-string: literal text and
    the interpolated values, not rendered. *)
Inductive Piece :=
| Text (s : string)
| Str (s : string)
| Int (z : Z)
| ReprShape (l : list ShapeEntry)
| ReprInts (l : list Z).

Definition Line := list Piece.

(** [files] maps a file (the name a path resolves to) to the model stored
    there; [stdout] is what has been printed, oldest first. *)
Record World := mkWorld {
  files : gmap string ModelProto;
  stdout : list Line
}.

Inductive Exn :=
| ValueError (msg : string)
| OverflowError (msg : string)
| MemoryError
| FileNotFoundError (path : string).

Inductive Outcome (A : Type) :=
| Returned (a : A)
| Raised (e : Exn).
Arguments Returned {A} a.
Arguments Raised {A} e.

(** A Python computation: it transforms the world and returns or raises. *)
Definition Py (A : Type) : Type := World -> World * Outcome A.

#[global] Instance Py_ret : MRet Py := fun A a w => (w, Returned a).

#[global] Instance Py_bind : MBind Py := fun A B k c w =>
  match c w with
  | (w', Returned a) => k a w'
  | (w', Raised e) => (w', Raised e)
  end.

Definition raise {A} (e : Exn) : Py A := fun w => (w, Raised e).

Definition print (l : Line) : Py unit := fun w =>
  ({| files := files w; stdout := stdout w ++ [l] |}, Returned tt).

(** [for x in xs: body(x)], where the body may mutate [x] in place. *)
Fixpoint for_each {A} (body : A -> Py A) (xs : list A) : Py (list A) :=
  match xs with
  | [] => mret []
  | x :: rest =>
      x' ← body x;
      rest' ← for_each body rest;
      mret (x' :: rest')
  end.

Definition NL : string := String (ascii_of_nat 10) EmptyString.

(** [str(i)] for an [int]. *)
Definition str_of_int (z : Z) : string := NilZero.string_of_int (Z.to_int z).

(** ** The host *)

(** What the run depends on outside the script: [resolve] gives the file a
    path names, or nothing when the path's directory does not exist (two
    spellings of one file resolve to the same name); [fits] tells whether
    the machine has room for an array of that many floats and its byte
    string; [check_model] is [onnx.checker.check_model], [None] when the
    model passes and the exception's message when it raises. *)
Record Host := mkHost {
  resolve : string -> option string;
  fits : Z -> bool;
  check_model : ModelProto -> option string
}.

(** The model a path leads to. *)
Definition stored (h : Host) (w : World) (path : string) : option ModelProto :=
  match resolve h path with
  | Some file => files w !! file
  | None => None
  end.

(** [onnx.load]: a path with no model behind it raises. *)
Definition onnx_load (h : Host) (path : string) : Py ModelProto := fun w =>
  match stored h w path with
  | Some m => (w, Returned m)
  | None => (w, Raised (FileNotFoundError path))
  end.

(** [onnx.save]: the file is created or replaced; a path whose directory
    does not exist raises. *)
Definition onnx_save (h : Host) (m : ModelProto) (path : string) : Py unit := fun w =>
  match resolve h path with
  | Some file =>
      ({| files := <[file := m]> (files w); stdout := stdout w |}, Returned tt)
  | None => (w, Raised (FileNotFoundError path))
  end.

(** ** Shape fixer *)

(** [while len(dim) > 0: dim.pop()]; [pop] drops the last element. *)
Equations? clear_dims (d : list Dimension) : list Dimension by wf (length d) lt :=
  clear_dims d with decide (0 < length d)%nat => {
    | left H := clear_dims (removelast d);
    | right _ := d }.
Proof.
  clear clear_dims.
  induction d as [|x [|y d] IH]; simpl in *; lia.
Qed.

(** What a signed 64-bit field holds. *)
Definition int64 (v : Z) : bool := (- 2 ^ 63 <=? v) && (v <? 2 ^ 63).

(** [dim = shape.dim.add(); dim.dim_value = v]: protobuf checks the value
    against the field's range when it is assigned. *)
Definition add_dim_value (v : Z) (d : list Dimension) : Py (list Dimension) :=
  if int64 v then mret (d ++ [DimValue v])
  else raise (ValueError ("Value out of range: " +:+ str_of_int v)).

Definition fix_input (seq_length : Z) (inp : ValueInfoProto) : Py ValueInfoProto :=
  if bool_decide (vi_name inp ∈ ["input_ids"; "tokens"]) then
    let d := clear_dims (shape_dim inp) in
    d ← add_dim_value 1 d;
    d ← add_dim_value seq_length d;
    print [Text "  Fixed "; Str (vi_name inp); Text " to shape [1, "; Int seq_length; Text "]"];;
    mret (set_shape d inp)
  else mret inp.

Definition fix_input_shapes (model : ModelProto) (seq_length : Z) : Py ModelProto :=
  print [Text NL; Text "=== Fixing input shapes (seq_length="; Int seq_length; Text ") ==="; Text NL];;
  inputs ← for_each (fix_input seq_length) (graph_input (graph model));
  mret (set_graph (set_graph_input inputs (graph model)) model).

(** ** Output stabilizer *)

(** Declarative mode: only the declared shape changes. *)
Definition fix_output (max_audio_samples : Z) (out : ValueInfoProto) : Py ValueInfoProto :=
  if bool_decide (vi_name out ∈ ["audio"; "waveform"]) then
    let d := clear_dims (shape_dim out) in
    d ← add_dim_value max_audio_samples d;
    print [Text "  Fixed "; Str (vi_name out); Text " to shape ["; Int max_audio_samples; Text "]"];;
    print [Text "    Note: This only fixes the declaration. The model may still"];;
    print [Text "    output variable-length data unless graph is modified."];;
    mret (set_shape d out)
  else mret out.

Definition fix_output_shapes (model : ModelProto) (max_audio_samples : Z) : Py ModelProto :=
  print [Text NL; Text "=== Fixing output shapes (max_audio="; Int max_audio_samples; Text ") ==="; Text NL];;
  outputs ← for_each (fix_output max_audio_samples) (graph_output (graph model));
  mret (set_graph (set_graph_output outputs (graph model)) model).

(** [TensorProto.DataType] codes. *)
Definition FLOAT : Z := 1.
Definition INT32 : Z := 6.
Definition INT64 : Z := 7.
Definition BOOL : Z := 9.
Definition FLOAT16 : Z := 10.

(** A numpy array: element type, shape and the bytes [tobytes()] gives. *)
Record NdArray := mkNdArray {
  nd_dtype : Z;
  nd_shape : list Z;
  nd_bytes : list Z
}.

(** The eight little-endian bytes of a 64-bit integer. *)
Definition le64 (v : Z) : list Z :=
  (fun i => Z.land (Z.shiftr v (8 * Z.of_nat i)) 255) <$> seq 0 8.

(** [np.array(l, dtype=np.int64)]: an element outside the 64-bit range is
    refused. *)
Definition np_array_int64 (l : list Z) : Py NdArray :=
  if forallb int64 l then
    mret {| nd_dtype := INT64; nd_shape := [Z.of_nat (length l)];
            nd_bytes := concat (le64 <$> l) |}
  else raise (OverflowError "Python int too large to convert to C long").

(** [numpy_helper.from_array(arr, name=name)] *)
Definition from_array (arr : NdArray) (name : string) : TensorProto :=
  {| t_name := name; data_type := nd_dtype arr; dims := nd_shape arr;
     raw_data := nd_bytes arr |}.

(** [helper.make_node(op_type, inputs, outputs, **attrs)] *)
Definition make_node (op : string) (inputs outputs : list string)
    (attrs : list (string * AttributeValue)) : NodeProto :=
  {| op_type := op; node_input := inputs; node_output := outputs;
     attribute := attrs |}.

(** [for i, out in enumerate(output): if out == original: output[i] = intermediate],
    from slot [i] on; [todo] is what the iteration has still to visit. *)
Fixpoint rename_slots (original intermediate : string) (i : nat)
    (todo : list string) (output : list string) : list string :=
  match todo with
  | [] => output
  | out :: rest =>
      rename_slots original intermediate (S i) rest
        (if decide (out = original) then <[i := intermediate]> output else output)
  end.

Definition rename_output (original intermediate : string) (n : NodeProto) : NodeProto :=
  set_node_output
    (rename_slots original intermediate 0 (node_output n) (node_output n)) n.

(** The body of the last loop of [add_output_padding]: the declared shape
    of an output named [original] becomes the one dimension
    [max_audio_samples]. *)
Definition pad_output (original : string) (max_audio_samples : Z)
    (out : ValueInfoProto) : Py ValueInfoProto :=
  if decide (vi_name out = original) then
    let d := clear_dims (shape_dim out) in
    d ← add_dim_value max_audio_samples d;
    mret (set_shape d out)
  else mret out.

(** [np.zeros(n, dtype=np.float32)]: four zero bytes per element.  numpy
    first converts the length to a signed 64-bit integer and refuses one
    that does not fit, on either side; then it refuses a negative length,
    a byte size beyond the signed 64-bit range, and an array there is no
    room for. *)
Definition np_zeros (h : Host) (n : Z) : Py NdArray :=
  if negb (int64 n) then raise (ValueError "Maximum allowed dimension exceeded")
  else if n <? 0 then raise (ValueError "negative dimensions are not allowed")
  else if 2 ^ 63 <=? 4 * n then
    raise (ValueError "array is too big; `arr.size * arr.dtype.itemsize` is larger than the maximum possible size.")
  else if fits h n then
    mret {| nd_dtype := FLOAT; nd_shape := [n];
            nd_bytes := replicate (Z.to_nat (4 * n)) 0 |}
  else raise MemoryError.

(** Structural mode.  The producer is the first node that lists the
    output name; it is known by its position in the node list. *)
Definition add_output_padding (h : Host) (model : ModelProto) (max_audio_samples : Z)
    : Py ModelProto :=
  print [Text NL; Text "=== Adding output padding ==="; Text NL];;
  let output_names :=
    vi_name <$> filter (fun out => vi_name out ∈ ["audio"; "waveform"])
                       (graph_output (graph model)) in
  match output_names with
  | [] =>
      print [Text "  Warning: No audio output found, skipping padding"];;
      mret model
  | original_output :: _ =>
      match list_find (fun node => original_output ∈ node_output node)
                      (graph_node (graph model)) with
      | None =>
          print [Text "  Warning: Could not find producer of "; Str original_output];;
          mret model
      | Some (i, producer_node) =>
          print [Text "  Original output: "; Str original_output];;
          print [Text "  Producer node: "; Str (op_type producer_node)];;
          let intermediate_output := original_output +:+ "_unpadded" in
          let g := graph model in
          let g := set_graph_node
                     (alter (rename_output original_output intermediate_output) i
                            (graph_node g)) g in
          arr ← np_zeros h max_audio_samples;
          let zeros := from_array arr "padding_zeros" in
          let g := set_graph_initializer (graph_initializer g ++ [zeros]) g in
          let concat_output := original_output +:+ "_concat" in
          let concat_node :=
            make_node "Concat" [intermediate_output; "padding_zeros"]
                      [concat_output] [("axis", AttrInt 0)] in
          let g := set_graph_node (graph_node g ++ [concat_node]) g in
          arr ← np_array_int64 [0];
          let starts := from_array arr "slice_starts" in
          arr ← np_array_int64 [max_audio_samples];
          let ends := from_array arr "slice_ends" in
          arr ← np_array_int64 [0];
          let axes := from_array arr "slice_axes" in
          let g := set_graph_initializer (graph_initializer g ++ [starts; ends; axes]) g in
          let slice_node :=
            make_node "Slice"
                      [concat_output; "slice_starts"; "slice_ends"; "slice_axes"]
                      [original_output] [] in
          let g := set_graph_node (graph_node g ++ [slice_node]) g in
          outputs ← for_each (pad_output original_output max_audio_samples)
                             (graph_output g);
          let g := set_graph_output outputs g in
          print [Text "  Added padding: "; Str intermediate_output;
                 Text " -> concat -> slice -> "; Str original_output];;
          print [Text "  Output shape: ["; Int max_audio_samples; Text "]"];;
          mret (set_graph g model)
      end
  end.

(** ** Introspector *)

Record TensorInfo := mkTensorInfo {
  ti_shape : list ShapeEntry;
  ti_dtype : string
}.

(** The dictionary [analyze_model] returns. *)
Record Info := mkInfo {
  info_inputs : gmap string TensorInfo;
  info_outputs : gmap string TensorInfo;
  info_opset : list Z;
  info_ir_version : Z
}.

Definition type_map : gmap Z string :=
  {[ FLOAT := "FLOAT"; INT32 := "INT32"; INT64 := "INT64"; BOOL := "BOOL";
     FLOAT16 := "FLOAT16" ]}.

(** The body of the loop over the dimensions: [if d.dim_value: ... elif
    d.dim_param: ... else: ...] tests each field for truthiness. *)
Definition report_dim (d : Dimension) : ShapeEntry :=
  if negb (dim_value d =? 0) then SInt (dim_value d)
  else if negb (String.eqb (dim_param d) "") then SStr (dim_param d)
  else SInt (-1).

Definition report_tensor (t : ValueInfoProto) : TensorInfo :=
  {| ti_shape := report_dim <$> shape_dim t;
     ti_dtype := default (str_of_int (elem_type t)) (type_map !! elem_type t) |}.

(** One round of [for inp in model.graph.input] (and of the loop over the
    outputs): the record is stored under the tensor's name and printed. *)
Definition report_into (acc : gmap string TensorInfo) (t : ValueInfoProto)
    : Py (gmap string TensorInfo) :=
  let r := report_tensor t in
  let acc := <[vi_name t := r]> acc in
  print [Text "  "; Str (vi_name t); Text ": "; Str (ti_dtype r); Text " ";
         ReprShape (ti_shape r)];;
  mret acc.

Fixpoint fold_py {S A} (body : S -> A -> Py S) (s : S) (xs : list A) : Py S :=
  match xs with
  | [] => mret s
  | x :: rest => s' ← body s x; fold_py body s' rest
  end.

Definition analyze_model (h : Host) (model_path : string) : Py Info :=
  print [Text NL; Text "=== Analyzing "; Str model_path; Text " ==="; Text NL];;
  model ← onnx_load h model_path;
  let opset := snd <$> opset_import model in
  print [Text "Inputs:"];;
  inputs ← fold_py report_into ∅ (graph_input (graph model));
  print [Text NL; Text "Outputs:"];;
  outputs ← fold_py report_into ∅ (graph_output (graph model));
  print [Text NL; Text "Opset: "; ReprInts opset];;
  mret {| info_inputs := inputs; info_outputs := outputs; info_opset := opset;
          info_ir_version := ir_version model |}.

(** ** Validator and pipeline *)

Record Args := mkArgs {
  arg_input : string;
  arg_output : option string;
  arg_seq_length : Z;
  arg_max_audio_samples : Z;
  arg_add_padding : bool;
  arg_analyze_only : bool
}.

Definition DQ : string := String (ascii_of_nat 34) EmptyString.

Definition next_steps : string :=
"
1. Generate QNN context binary (requires Linux):

   # On Linux machine with QAIRT SDK:
   export QNN_SDK_ROOT=/path/to/qairt/2.40.0.251030

   python3 -c " +:+ DQ +:+ "
   import onnxruntime as ort
   options = ort.SessionOptions()
   options.add_session_config_entry('ep.context_enable', '1')
   options.add_session_config_entry('ep.context_file_path', './kokoro_ctx.onnx')
   options.add_session_config_entry('ep.context_embed_mode', '0')

   session = ort.InferenceSession(
       'kokoro_static.onnx',
       sess_options=options,
       providers=[('QNNExecutionProvider', {
           'backend_path': 'libQnnHtp.so',
           'htp_performance_mode': 'burst'
       })]
   )
   print('Context binary generated!')
   " +:+ DQ +:+ "

2. Deploy to device:
   - Copy kokoro_ctx.onnx and .bin files to device
   - Update KokoroQnnTTS to load context model

3. For truly static output, re-export from PyTorch with padding built-in.
".

Definition rule : string := String.concat "" (replicate 60 "=").


Definition validate_model (h : Host) (model : ModelProto) : Py bool :=
  print [Text NL; Text "=== Validating model ==="; Text NL];;
  match check_model h model with
  | None =>
      print [Text "  Model is valid!"];;
      mret true
  | Some e =>
      print [Text "  Validation error: "; Str e];;
      mret false
  end.

(** [main] returns [None] (it falls off the end, or a bare [return]) or
    [Some 1]. *)
Definition main (h : Host) (args : Args) : Py (option Z) :=
  info ← analyze_model h (arg_input args);
  if arg_analyze_only args then mret None
  else
    match arg_output args with
    | None | Some EmptyString =>
        print [Text "Error: --output is required unless --analyze_only is set"];;
        mret (Some 1)
    | Some output =>
        print [Text NL; Text "Loading model from "; Str (arg_input args); Text "..."];;
        model ← onnx_load h (arg_input args);
        model ← fix_input_shapes model (arg_seq_length args);
        model ← (if arg_add_padding args
                 then add_output_padding h model (arg_max_audio_samples args)
                 else fix_output_shapes model (arg_max_audio_samples args));
        ok ← validate_model h model;
        if (ok : bool) then
          print [Text NL; Text "Saving model to "; Str output; Text "..."];;
          onnx_save h model output;;
          print [Text "Done!"];;
          analyze_model h output;;
          print [Text (NL +:+ rule)];;
          print [Text "NEXT STEPS for full NPU support:"];;
          print [Text rule];;
          print [Text next_steps];;
          mret None
        else
          print [Text NL; Text "Model validation failed. Not saving."];;
          mret (Some 1)
    end.
(** ** Vocabulary of the statements *)

Definition input_selector : list string := ["input_ids"; "tokens"].
Definition output_selector : list string := ["audio"; "waveform"].

(** The names of the graph outputs the output selector matches, in graph
    order; the first of them is the designated output. *)
Definition output_names (m : ModelProto) : list string :=
  vi_name <$> filter (fun out => vi_name out ∈ output_selector)
                     (graph_output (graph m)).

Definition designated_output (m : ModelProto) : option string :=
  head (output_names m).

(** The first node that lists [name] among its outputs, with its position. *)
Definition producer (name : string) (m : ModelProto) : option (nat * NodeProto) :=
  list_find (fun node => name ∈ node_output node) (graph_node (graph m)).

Definition rename (original intermediate : string) (out : string) : string :=
  if decide (out = original) then intermediate else out.

(** The nodes and constants structural mode adds for output [original] and
    length [M]. *)
Definition concat_node (original : string) : NodeProto :=
  {| op_type := "Concat";
     node_input := [original +:+ "_unpadded"; "padding_zeros"];
     node_output := [original +:+ "_concat"];
     attribute := [("axis", AttrInt 0)] |}.

Definition slice_node (original : string) : NodeProto :=
  {| op_type := "Slice";
     node_input := [original +:+ "_concat"; "slice_starts"; "slice_ends"; "slice_axes"];
     node_output := [original];
     attribute := [] |}.

Definition padding_zeros (M : Z) : TensorProto :=
  {| t_name := "padding_zeros"; data_type := FLOAT; dims := [M];
     raw_data := replicate (Z.to_nat (4 * M)) 0 |}.

Definition slice_bound (name : string) (v : Z) : TensorProto :=
  {| t_name := name; data_type := INT64; dims := [1]; raw_data := le64 v |}.


(** The integer a little-endian byte string stands for. *)
Definition le_decode (bs : list Z) : Z :=
  foldr (fun b acc => b + 256 * acc) 0 bs.



(** What the shape rewrites do to one tensor declaration. *)
Definition fixed_input (L : Z) (inp : ValueInfoProto) : ValueInfoProto :=
  if bool_decide (vi_name inp ∈ input_selector)
  then set_shape [DimValue 1; DimValue L] inp else inp.

Definition fixed_output (M : Z) (out : ValueInfoProto) : ValueInfoProto :=
  if bool_decide (vi_name out ∈ output_selector)
  then set_shape [DimValue M] out else out.

Definition padded_output (original : string) (M : Z) (out : ValueInfoProto)
    : ValueInfoProto :=
  if decide (vi_name out = original) then set_shape [DimValue M] out else out.

(** The lines one round of each loop prints. *)
Definition fix_input_lines (L : Z) (inp : ValueInfoProto) : list Line :=
  if bool_decide (vi_name inp ∈ input_selector)
  then [[Text "  Fixed "; Str (vi_name inp); Text " to shape [1, "; Int L; Text "]"]]
  else [].

Definition fix_output_lines (M : Z) (out : ValueInfoProto) : list Line :=
  if bool_decide (vi_name out ∈ output_selector)
  then [[Text "  Fixed "; Str (vi_name out); Text " to shape ["; Int M; Text "]"];
        [Text "    Note: This only fixes the declaration. The model may still"];
        [Text "    output variable-length data unless graph is modified."]]
  else [].

Definition padding_banner : Line :=
  [Text NL; Text "=== Adding output padding ==="; Text NL].

Definition no_target_warning : Line :=
  [Text "  Warning: No audio output found, skipping padding"].

Definition no_producer_warning (original : string) : Line :=
  [Text "  Warning: Could not find producer of "; Str original].

Definition padding_lines (original op : string) (M : Z) : list Line :=
  [padding_banner;
   [Text "  Original output: "; Str original];
   [Text "  Producer node: "; Str op];
   [Text "  Added padding: "; Str (original +:+ "_unpadded");
    Text " -> concat -> slice -> "; Str original];
   [Text "  Output shape: ["; Int M; Text "]"]].

(** The graph structural mode returns when the designated output
    [original] is produced by the node at position [i]. *)
Definition padded (m : ModelProto) (M : Z) (original : string) (i : nat) : ModelProto :=
  set_graph
    {| graph_node :=
         (alter (rename_output original (original +:+ "_unpadded")) i
                (graph_node (graph m)) ++ [concat_node original])
         ++ [slice_node original];
       graph_initializer :=
         (graph_initializer (graph m) ++ [padding_zeros M])
         ++ [slice_bound "slice_starts" 0; slice_bound "slice_ends" M;
             slice_bound "slice_axes" 0];
       graph_input := graph_input (graph m);
       graph_output := padded_output original M <$> graph_output (graph m) |}
    m.

(** The two rewrite steps of [main], between loading and validating. *)
Definition transform (h : Host) (args : Args) (model : ModelProto) : Py ModelProto :=
  model ← fix_input_shapes model (arg_seq_length args);
  if arg_add_padding args
  then add_output_padding h model (arg_max_audio_samples args)
  else fix_output_shapes model (arg_max_audio_samples args).

(** [c] touches no file, prints [lines] and ends with [r], whatever the
    world it starts from. *)
Definition emits {A} (c : Py A) (lines : list Line) (r : Outcome A) : Prop :=
  forall w, c w = ({| files := files w; stdout := stdout w ++ lines |}, r).

(** [c] prints and ends the same way from every world, and touches no
    file. *)
Definition steady {A} (c : Py A) : Prop :=
  exists lines r, emits c lines r.

(** What a run leaves on disk: one model written to one file, or nothing. *)
Definition write_back (fw : option (string * ModelProto))
    (f : gmap string ModelProto) : gmap string ModelProto :=
  match fw with
  | Some (file, m) => <[file := m]> f
  | None => f
  end.

(** The report of the introspector. *)
Definition report_line (t : ValueInfoProto) : Line :=
  [Text "  "; Str (vi_name t); Text ": "; Str (ti_dtype (report_tensor t));
   Text " "; ReprShape (ti_shape (report_tensor t))].

Definition report_all (ts : list ValueInfoProto) : gmap string TensorInfo :=
  foldl (fun acc t => <[vi_name t := report_tensor t]> acc) ∅ ts.

Definition analysis (m : ModelProto) : Info :=
  {| info_inputs := report_all (graph_input (graph m));
     info_outputs := report_all (graph_output (graph m));
     info_opset := snd <$> opset_import m;
     info_ir_version := ir_version m |}.

Definition analyze_banner (path : string) : Line :=
  [Text NL; Text "=== Analyzing "; Str path; Text " ==="; Text NL].

Definition analyze_lines (path : string) (m : ModelProto) : list Line :=
  [analyze_banner path; [Text "Inputs:"]]
  ++ (report_line <$> graph_input (graph m))
  ++ [[Text NL; Text "Outputs:"]]
  ++ (report_line <$> graph_output (graph m))
  ++ [[Text NL; Text "Opset: "; ReprInts (snd <$> opset_import m)]].

(** How the two rewrite steps end on graph [m]. *)
Definition transformed (h : Host) (args : Args) (m : ModelProto) : Outcome ModelProto :=
  (transform h args m {| files := ∅; stdout := [] |}).2.

(** What a run of [main] writes and how it ends, given what the input
    path holds. *)
Definition main_write (h : Host) (args : Args) (src : option ModelProto)
    : option (string * ModelProto) :=
  match src with
  | None => None
  | Some m =>
      if arg_analyze_only args then None
      else match arg_output args with
           | None | Some EmptyString => None
           | Some output =>
               match transformed h args m with
               | Returned m' =>
                   match check_model h m', resolve h output with
                   | None, Some file => Some (file, m')
                   | _, _ => None
                   end
               | Raised _ => None
               end
           end
  end.

Definition main_outcome (h : Host) (args : Args) (src : option ModelProto)
    : Outcome (option Z) :=
  match src with
  | None => Raised (FileNotFoundError (arg_input args))
  | Some m =>
      if arg_analyze_only args then Returned None
      else match arg_output args with
           | None | Some EmptyString => Returned (Some 1)
           | Some output =>
               match transformed h args m with
               | Returned m' =>
                   match check_model h m', resolve h output with
                   | None, Some _ => Returned None
                   | None, None => Raised (FileNotFoundError output)
                   | Some _, _ => Returned (Some 1)
                   end
               | Raised e => Raised e
               end
           end
  end.

(** The lengths structural mode can pad to on host [h]: numpy makes the
    zero array. *)
Definition can_pad (h : Host) (M : Z) : Prop :=
  0 <= M < 2 ^ 61 /\ fits h M = true.

(** Some input, or some output, carries a selected name. *)
Definition selects_input (m : ModelProto) : Prop :=
  Exists (fun inp => vi_name inp ∈ input_selector) (graph_input (graph m)).

Definition selects_output (m : ModelProto) : Prop :=
  Exists (fun out => vi_name out ∈ output_selector) (graph_output (graph m)).

#[global] Instance can_pad_dec h M : Decision (can_pad h M).
Proof. unfold can_pad. apply _. Defined.

#[global] Instance selects_input_dec m : Decision (selects_input m).
Proof. unfold selects_input. apply _. Defined.

#[global] Instance selects_output_dec m : Decision (selects_output m).
Proof. unfold selects_output. apply _. Defined.

(** ** Sample graphs and hosts *)

Definition w0 : World := {| files := ∅; stdout := [] |}.

(** A host whose working directory exists and where [nodir/] does not;
    [./name] is another spelling of [name]; arrays up to 2^20 floats fit;
    the checker accepts every model. *)
Definition host_resolve (path : string) : option string :=
  if String.prefix "nodir/" path then None
  else if String.prefix "./" path
       then Some (String.substring 2 (String.length path - 2) path)
       else Some path.

Definition host : Host :=
  {| resolve := host_resolve; fits := fun n => n <=? 2 ^ 20;
     check_model := fun _ => None |}.

(** The same host with a checker that rejects every model. *)
Definition host_strict : Host :=
  {| resolve := host_resolve; fits := fun n => n <=? 2 ^ 20;
     check_model := fun _ => Some "bad graph" |}.

(** A producer with two outputs, the second one designated. *)
Definition n_vocoder : NodeProto :=
  mkNode "Mul" ["x"; "gain"] ["peak"; "audio"] [].

Definition m_kokoro : ModelProto :=
  mkModel 8 [("", 17)]
    (mkGraph [mkNode "Gather" ["tokens"; "table"] ["x"] [("axis", AttrInt 0)];
              n_vocoder]
             [mkTensor "gain" FLOAT [1] [0; 0; 128; 63]]
             [mkValueInfo "tokens" INT64 [DimValue 1; DimParam "seq"];
              mkValueInfo "style" FLOAT [DimValue 1; DimValue 256]]
             [mkValueInfo "audio" FLOAT [DimParam "len"]]).

(** A node that lists the designated name in two of its output slots. *)
Definition n_twice : NodeProto := mkNode "Split" ["x"] ["audio"; "audio"] [].

Definition m_twice : ModelProto :=
  mkModel 8 [("", 17)]
    (mkGraph [n_twice] [] [mkValueInfo "x" FLOAT [DimUnset]]
             [mkValueInfo "audio" FLOAT [DimUnset]]).

(** No output carries a selected name. *)
Definition m_speech : ModelProto :=
  mkModel 8 [("", 17)]
    (mkGraph [mkNode "Relu" ["x"] ["speech"] []] []
             [mkValueInfo "x" FLOAT [DimUnset]]
             [mkValueInfo "speech" FLOAT [DimUnset]]).

(** Two outputs carry selected names and no node produces the first. *)
Definition m_orphan : ModelProto :=
  mkModel 8 [("", 17)]
    (mkGraph [mkNode "Relu" ["x"] ["waveform"] []] []
             [mkValueInfo "x" FLOAT [DimUnset]]
             [mkValueInfo "audio" FLOAT [DimUnset];
              mkValueInfo "waveform" FLOAT [DimUnset]]).

(** [m_kokoro] after both rewrite steps with [L = 512] and [M = 3]. *)
Definition m_static : ModelProto :=
  padded (set_graph (set_graph_input (fixed_input 512 <$> graph_input (graph m_kokoro))
                                     (graph m_kokoro)) m_kokoro)
         3 "audio" 1.

(** A run of the converter in structural mode on a stored model. *)
Definition args_static : Args :=
  mkArgs "kokoro.onnx" (Some "kokoro_static.onnx") 512 3 true false.

Definition w_disk : World :=
  {| files := {[ "kokoro.onnx" := m_kokoro ]}; stdout := [] |}.

Definition w_busy : World :=
  {| files := {[ "kokoro.onnx" := m_kokoro; "other.onnx" := m_speech ]};
     stdout := [[Text "earlier output"]] |}.


Definition args_in_place : Args :=
  mkArgs "kokoro.onnx" (Some "./kokoro.onnx") 512 3 true false.

(** ** Vocabulary of the further properties *)

(** The graphs the two declarative rewrites return. *)
Definition with_fixed_inputs (L : Z) (m : ModelProto) : ModelProto :=
  set_graph (set_graph_input (fixed_input L <$> graph_input (graph m)) (graph m)) m.

Definition with_fixed_outputs (M : Z) (m : ModelProto) : ModelProto :=
  set_graph (set_graph_output (fixed_output M <$> graph_output (graph m)) (graph m)) m.

(** The four constants one structural rewrite appends. *)
Definition padding_constants (M : Z) : list TensorProto :=
  [padding_zeros M; slice_bound "slice_starts" 0; slice_bound "slice_ends" M;
   slice_bound "slice_axes" 0].

Definition input_banner (L : Z) : Line :=
  [Text NL; Text "=== Fixing input shapes (seq_length="; Int L; Text ") ==="; Text NL].

Definition output_banner (M : Z) : Line :=
  [Text NL; Text "=== Fixing output shapes (max_audio="; Int M; Text ") ==="; Text NL].

Definition output_required_error : Line :=
  [Text "Error: --output is required unless --analyze_only is set"].

(** [if not args.output]: no path, or the empty one. *)
Definition no_output (args : Args) : Prop :=
  arg_output args = None \/ arg_output args = Some "".

(** The graph structural mode returns, when it returns one: the graph it
    was given if there is nothing to pad, the padded graph otherwise. *)
Definition structural_result (m : ModelProto) (M : Z) : ModelProto :=
  match designated_output m with
  | None => m
  | Some original =>
      match producer original m with
      | None => m
      | Some (i, _) => padded m M original i
      end
  end.

(** The graph the two rewrite steps return, when they return one. *)
Definition rewritten (args : Args) (m : ModelProto) : ModelProto :=
  if arg_add_padding args
  then structural_result (with_fixed_inputs (arg_seq_length args) m)
                         (arg_max_audio_samples args)
  else with_fixed_outputs (arg_max_audio_samples args)
                          (with_fixed_inputs (arg_seq_length args) m).
(** ** The monad *)

Lemma bind_returned {A B} (c : Py A) (k : A -> Py B) w w' a :
  c w = (w', Returned a) -> (c ≫= k) w = k a w'.
Proof. intros H. unfold mbind, Py_bind. rewrite H. reflexivity. Qed.

Lemma bind_raised {A B} (c : Py A) (k : A -> Py B) w w' e :
  c w = (w', Raised e) -> (c ≫= k) w = (w', Raised e).
Proof. intros H. unfold mbind, Py_bind. rewrite H. reflexivity. Qed.

Lemma bind_assoc {A B C} (c : Py A) (f : A -> Py B) (g : B -> Py C) w :
  ((c ≫= f) ≫= g) w = (c ≫= fun a => f a ≫= g) w.
Proof.
  unfold mbind, Py_bind. destruct (c w) as [w1 [a|e]]; reflexivity.
Qed.

Lemma print_run l w :
  print l w = ({| files := files w; stdout := stdout w ++ [l] |}, Returned tt).
Proof. reflexivity. Qed.

Lemma run_eq {A} f f' l l' (r r' : Outcome A) :
  f = f' -> r = r' -> l = l' -> (mkWorld f l, r) = (mkWorld f' l', r').
Proof. by intros -> -> ->. Qed.

Ltac py_step tac := erewrite bind_returned by tac; cbv beta; cbn [files stdout].

Ltac py_done :=
  unfold mret, Py_ret; cbn [files stdout];
  apply run_eq;
    [reflexivity | reflexivity
    | etrans; [rewrite <- ?app_assoc; reflexivity | reflexivity]].

(** A loop whose body, on the elements of the list, returns [f x] having
    printed [out x], returns the mapped list and has printed the bodies'
    lines in order. *)
Lemma for_each_run {A} (body : A -> Py A) (f : A -> A) (out : A -> list Line) xs :
  (forall x w, x ∈ xs -> body x w =
     ({| files := files w; stdout := stdout w ++ out x |}, Returned (f x))) ->
  forall w, for_each body xs w =
    ({| files := files w; stdout := stdout w ++ concat (out <$> xs) |},
     Returned (f <$> xs)).
Proof.
  induction xs as [|x xs IH]; intros Hbody w; simpl.
  - unfold mret, Py_ret. rewrite app_nil_r. destruct w; reflexivity.
  - erewrite bind_returned by apply Hbody, list_elem_of_here.
    erewrite bind_returned
      by (apply IH; intros y w' Hy; apply Hbody; by apply list_elem_of_further).
    unfold mret, Py_ret. simpl. rewrite <- app_assoc. reflexivity.
Qed.

(** A loop whose body prints nothing. *)
Lemma for_each_quiet {A} (body : A -> Py A) (f : A -> A) xs :
  (forall x w, body x w = (w, Returned (f x))) ->
  forall w, for_each body xs w = (w, Returned (f <$> xs)).
Proof.
  intros Hbody. induction xs as [|x xs IH]; intros w; simpl; [reflexivity|].
  erewrite bind_returned by apply Hbody.
  erewrite bind_returned by apply IH. reflexivity.
Qed.

(** A loop stops at the first element whose body raises: the elements
    before it are passed over in silence. *)
Lemma for_each_raises {A} (body : A -> Py A) (P : A -> Prop)
    `{!forall x, Decision (P x)} (e : Exn) xs :
  (forall x w, P x -> body x w = (w, Raised e)) ->
  (forall x w, ~ P x -> body x w = (w, Returned x)) ->
  Exists P xs ->
  forall w, for_each body xs w = (w, Raised e).
Proof.
  intros Hraise Hskip. induction xs as [|x xs IH]; intros Hex w.
  - by apply Exists_nil in Hex.
  - simpl. destruct (decide (P x)) as [Hx|Hx].
    + by erewrite bind_raised by (by apply Hraise).
    + erewrite bind_returned by (by apply Hskip).
      apply Exists_cons in Hex as [?|Hex]; [done|].
      by erewrite bind_raised by (by apply IH).
Qed.

(** ** Computations that touch no file *)

Lemma emits_ret {A} (a : A) : emits (mret a) [] (Returned a).
Proof. intros w. unfold mret, Py_ret. rewrite app_nil_r. by destruct w. Qed.

Lemma emits_raise {A} (e : Exn) : emits (@raise A e) [] (Raised e).
Proof. intros w. unfold raise. rewrite app_nil_r. by destruct w. Qed.

Lemma emits_print l : emits (print l) [l] (Returned tt).
Proof. intros w. reflexivity. Qed.

Lemma emits_bind {A B} (c : Py A) (k : A -> Py B) l1 a l2 r :
  emits c l1 (Returned a) -> emits (k a) l2 r -> emits (c ≫= k) (l1 ++ l2) r.
Proof.
  intros Hc Hk w. rewrite (bind_returned _ _ _ _ _ (Hc w)), Hk. simpl.
  by rewrite app_assoc.
Qed.

Lemma emits_bind_raised {A B} (c : Py A) (k : A -> Py B) l e :
  emits c l (Raised e) -> emits (c ≫= k) l (Raised e).
Proof. intros Hc w. by rewrite (bind_raised _ _ _ _ _ (Hc w)). Qed.

(** [steady c]: what [c] prints and how it ends do not depend on the
    world, and it touches no file. *)
Lemma steady_ret {A} (a : A) : steady (mret a).
Proof. eexists _, _. apply emits_ret. Qed.

Lemma steady_raise {A} (e : Exn) : steady (@raise A e).
Proof. eexists _, _. apply emits_raise. Qed.

Lemma steady_print l : steady (print l).
Proof. eexists _, _. apply emits_print. Qed.

Lemma steady_bind {A B} (c : Py A) (k : A -> Py B) :
  steady c -> (forall a, steady (k a)) -> steady (c ≫= k).
Proof.
  intros (l1 & [a|e] & Hc) Hk.
  - destruct (Hk a) as (l2 & r & Ha). eexists _, _. by eapply emits_bind.
  - eexists _, _. by apply emits_bind_raised.
Qed.

Lemma steady_for_each {A} (body : A -> Py A) xs :
  (forall x, steady (body x)) -> steady (for_each body xs).
Proof.
  intros Hbody. induction xs as [|x xs IH]; simpl; [apply steady_ret|].
  apply steady_bind; [apply Hbody|]. intros x'.
  apply steady_bind; [apply IH|]. intros xs'. apply steady_ret.
Qed.

Ltac steady :=
  repeat first
    [ apply steady_ret | apply steady_raise | apply steady_print
    | apply steady_for_each; intros ?
    | apply steady_bind; [|intros ?] ].

(** ** Shape fixer *)

Lemma clear_dims_nil d : clear_dims d = [].
Proof.
  funelim (clear_dims d).
  - assumption.
  - destruct d; [reflexivity | simpl in *; lia].
Qed.

Lemma int64_spec v : int64 v = true <-> - 2 ^ 63 <= v < 2 ^ 63.
Proof. unfold int64. rewrite andb_true_iff, Z.leb_le, Z.ltb_lt. reflexivity. Qed.

Lemma int64_true v : - 2 ^ 63 <= v < 2 ^ 63 -> int64 v = true.
Proof. apply int64_spec. Qed.

Lemma add_dim_value_run v d w :
  int64 v = true -> add_dim_value v d w = (w, Returned (d ++ [DimValue v])).
Proof. intros H. unfold add_dim_value. by rewrite H. Qed.

Lemma add_dim_value_raises v d w :
  int64 v = false ->
  add_dim_value v d w =
    (w, Raised (ValueError ("Value out of range: " +:+ str_of_int v))).
Proof. intros H. unfold add_dim_value. by rewrite H. Qed.

Lemma steady_add_dim_value v d : steady (add_dim_value v d).
Proof. unfold add_dim_value. destruct (int64 v); steady. Qed.

Lemma fix_input_run L inp w :
  int64 L = true \/ vi_name inp ∉ input_selector ->
  fix_input L inp w =
    ({| files := files w; stdout := stdout w ++ fix_input_lines L inp |},
     Returned (fixed_input L inp)).
Proof.
  intros H. unfold fix_input, fixed_input, fix_input_lines, input_selector.
  case_bool_decide as Hsel.
  - destruct H as [H|H]; [|by destruct H].
    rewrite clear_dims_nil.
    erewrite bind_returned by (by apply add_dim_value_run).
    erewrite bind_returned by (by apply add_dim_value_run).
    reflexivity.
  - unfold mret, Py_ret. rewrite app_nil_r. destruct w; reflexivity.
Qed.

Lemma fix_input_raises L inp w :
  int64 L = false -> vi_name inp ∈ input_selector ->
  fix_input L inp w =
    (w, Raised (ValueError ("Value out of range: " +:+ str_of_int L))).
Proof.
  intros H Hsel. unfold fix_input.
  rewrite bool_decide_true by exact Hsel. rewrite clear_dims_nil.
  erewrite bind_returned by (by apply add_dim_value_run).
  by erewrite bind_raised by (by apply add_dim_value_raises).
Qed.

Lemma fix_input_skips L inp w :
  vi_name inp ∉ input_selector -> fix_input L inp w = (w, Returned inp).
Proof. intros H. unfold fix_input. by rewrite bool_decide_false. Qed.

Lemma steady_fix_input L inp : steady (fix_input L inp).
Proof.
  unfold fix_input. case_bool_decide; steady; apply steady_add_dim_value.
Qed.

Lemma steady_fix_input_shapes m L : steady (fix_input_shapes m L).
Proof. unfold fix_input_shapes. steady. apply steady_fix_input. Qed.

Lemma not_selects_input m inp :
  ~ selects_input m -> inp ∈ graph_input (graph m) ->
  vi_name inp ∉ input_selector.
Proof.
  intros Hno Hin Hsel. apply Hno. apply Exists_exists. by exists inp.
Qed.

(** [fix_input_shapes] returns whenever [L] fits a dimension or no input
    is selected; this is then its result. *)
Lemma fix_input_shapes_result m L w :
  int64 L = true \/ ~ selects_input m ->
  fix_input_shapes m L w =
    ({| files := files w;
        stdout := stdout w ++ input_banner L
                  :: concat (fix_input_lines L <$> graph_input (graph m)) |},
     Returned (with_fixed_inputs L m)).
Proof.
  intros H. unfold fix_input_shapes.
  erewrite bind_returned by apply print_run.
  erewrite bind_returned.
  2: { apply for_each_run. intros inp w' Hin. apply fix_input_run.
       destruct H as [H|H]; [by left | right; by eapply not_selects_input]. }
  unfold mret, Py_ret. cbn [files stdout]. rewrite <- app_assoc. reflexivity.
Qed.

(** Otherwise it raises protobuf's error at the first selected input. *)
Lemma fix_input_shapes_out_of_range m L w :
  int64 L = false -> selects_input m ->
  fix_input_shapes m L w =
    ({| files := files w; stdout := stdout w ++ [input_banner L] |},
     Raised (ValueError ("Value out of range: " +:+ str_of_int L))).
Proof.
  intros H Hsel. unfold fix_input_shapes.
  erewrite bind_returned by apply print_run.
  erewrite bind_raised; [reflexivity|].
  apply (for_each_raises _ (fun inp => vi_name inp ∈ input_selector));
    [intros; by apply fix_input_raises | intros; by apply fix_input_skips | exact Hsel].
Qed.

Lemma fixed_input_name L inp : vi_name (fixed_input L inp) = vi_name inp.
Proof. unfold fixed_input. by case_bool_decide. Qed.

Lemma fixed_input_idem L inp : fixed_input L (fixed_input L inp) = fixed_input L inp.
Proof.
  unfold fixed_input. destruct (bool_decide (vi_name inp ∈ input_selector)) eqn:H.
  - simpl. rewrite H. reflexivity.
  - rewrite H. reflexivity.
Qed.

Lemma with_fixed_inputs_idem L m :
  with_fixed_inputs L (with_fixed_inputs L m) = with_fixed_inputs L m.
Proof.
  unfold with_fixed_inputs, set_graph, set_graph_input. simpl.
  rewrite <- list_fmap_compose.
  rewrite (list_fmap_ext (fixed_input L ∘ fixed_input L) (fixed_input L)
             (graph_input (graph m))); [reflexivity|].
  intros _ x _. apply fixed_input_idem.
Qed.

Lemma selects_input_fixed L m :
  selects_input (with_fixed_inputs L m) <-> selects_input m.
Proof.
  unfold selects_input. simpl. rewrite Exists_fmap.
  apply Exists_proper; [|reflexivity]. intros inp. simpl.
  by rewrite fixed_input_name.
Qed.




(** C8: [fix_input_shapes] is idempotent.  For every graph and every [L]
    a signed 64-bit dimension holds (so every [0 < L < 2^63]) the first
    run returns a graph; and whenever a run with [L] has returned a graph,
    a second run with the same [L] on that graph returns it again,
    touching no file. *)
Theorem fix_input_shapes_idempotent (m : ModelProto) (L : Z) (w : World) :
  (- 2 ^ 63 <= L < 2 ^ 63 ->
   exists w1 m1, fix_input_shapes m L w = (w1, Returned m1)) /\
  (forall w1 m1,
     fix_input_shapes m L w = (w1, Returned m1) ->
     forall w2, exists w3,
       fix_input_shapes m1 L w2 = (w3, Returned m1) /\ files w3 = files w2).
Proof.
  split.
  { intros HL. eexists _, _. apply fix_input_shapes_result. left.
    by apply int64_true. }
  intros w1 m1 Hrun w2.
  assert (Hok : int64 L = true \/ ~ selects_input m).
  { destruct (int64 L) eqn:HL; [by left|].
    destruct (decide (selects_input m)) as [Hsel|Hno]; [|by right].
    by rewrite (fix_input_shapes_out_of_range m L w HL Hsel) in Hrun. }
  rewrite (fix_input_shapes_result m L w Hok) in Hrun.
  injection Hrun as _ <-.
  rewrite fix_input_shapes_result, with_fixed_inputs_idem.
  - eexists. split; reflexivity.
  - destruct Hok as [?|Hno]; [by left | right].
    by rewrite selects_input_fixed.
Qed.

Lemma fix_input_shapes_idempotent_witness :
  exists w1 m1 w3,
    fix_input_shapes m_kokoro 512 w0 = (w1, Returned m1) /\
    fix_input_shapes m1 512 w0 = (w3, Returned m1).
Proof.
  destruct (fix_input_shapes_idempotent m_kokoro 512 w0) as [Hfirst Hagain].
  destruct Hfirst as (w1 & m1 & Hrun); [lia|].
  destruct (Hagain w1 m1 Hrun w0) as (w3 & Hrun' & _).
  exists w1, m1, w3. split; [exact Hrun | exact Hrun'].
Defined.

(** ** Output stabilizer: declarative mode *)

Lemma fix_output_run M out w :
  int64 M = true \/ vi_name out ∉ output_selector ->
  fix_output M out w =
    ({| files := files w; stdout := stdout w ++ fix_output_lines M out |},
     Returned (fixed_output M out)).
Proof.
  intros H. unfold fix_output, fixed_output, fix_output_lines, output_selector.
  case_bool_decide as Hsel.
  - destruct H as [H|H]; [|by destruct H].
    rewrite clear_dims_nil.
    erewrite bind_returned by (by apply add_dim_value_run).
    unfold mbind, Py_bind, mret, Py_ret, print. simpl.
    rewrite <- !app_assoc. reflexivity.
  - unfold mret, Py_ret. rewrite app_nil_r. destruct w; reflexivity.
Qed.

Lemma fix_output_raises M out w :
  int64 M = false -> vi_name out ∈ output_selector ->
  fix_output M out w =
    (w, Raised (ValueError ("Value out of range: " +:+ str_of_int M))).
Proof.
  intros H Hsel. unfold fix_output.
  rewrite bool_decide_true by exact Hsel. rewrite clear_dims_nil.
  by erewrite bind_raised by (by apply add_dim_value_raises).
Qed.

Lemma fix_output_skips M out w :
  vi_name out ∉ output_selector -> fix_output M out w = (w, Returned out).
Proof. intros H. unfold fix_output. by rewrite bool_decide_false. Qed.

Lemma steady_fix_output M out : steady (fix_output M out).
Proof.
  unfold fix_output. case_bool_decide; steady; apply steady_add_dim_value.
Qed.

Lemma steady_fix_output_shapes m M : steady (fix_output_shapes m M).
Proof. unfold fix_output_shapes. steady. apply steady_fix_output. Qed.

Lemma not_selects_output m out :
  ~ selects_output m -> out ∈ graph_output (graph m) ->
  vi_name out ∉ output_selector.
Proof.
  intros Hno Hin Hsel. apply Hno. apply Exists_exists. by exists out.
Qed.

Lemma fix_output_shapes_result m M w :
  int64 M = true \/ ~ selects_output m ->
  fix_output_shapes m M w =
    ({| files := files w;
        stdout := stdout w ++ output_banner M
                  :: concat (fix_output_lines M <$> graph_output (graph m)) |},
     Returned (with_fixed_outputs M m)).
Proof.
  intros H. unfold fix_output_shapes.
  erewrite bind_returned by apply print_run.
  erewrite bind_returned.
  2: { apply for_each_run. intros out w' Hin. apply fix_output_run.
       destruct H as [H|H]; [by left | right; by eapply not_selects_output]. }
  unfold mret, Py_ret. cbn [files stdout]. rewrite <- app_assoc. reflexivity.
Qed.

Lemma fix_output_shapes_out_of_range m M w :
  int64 M = false -> selects_output m ->
  fix_output_shapes m M w =
    ({| files := files w; stdout := stdout w ++ [output_banner M] |},
     Raised (ValueError ("Value out of range: " +:+ str_of_int M))).
Proof.
  intros H Hsel. unfold fix_output_shapes.
  erewrite bind_returned by apply print_run.
  erewrite bind_raised; [reflexivity|].
  apply (for_each_raises _ (fun out => vi_name out ∈ output_selector));
    [intros; by apply fix_output_raises | intros; by apply fix_output_skips | exact Hsel].
Qed.

Lemma fixed_output_name M out : vi_name (fixed_output M out) = vi_name out.
Proof. unfold fixed_output. by case_bool_decide. Qed.

Lemma fixed_output_idem M out :
  fixed_output M (fixed_output M out) = fixed_output M out.
Proof.
  unfold fixed_output. destruct (bool_decide (vi_name out ∈ output_selector)) eqn:H.
  - simpl. rewrite H. reflexivity.
  - rewrite H. reflexivity.
Qed.

Lemma with_fixed_outputs_idem M m :
  with_fixed_outputs M (with_fixed_outputs M m) = with_fixed_outputs M m.
Proof.
  unfold with_fixed_outputs, set_graph, set_graph_output. simpl.
  rewrite <- list_fmap_compose.
  rewrite (list_fmap_ext (fixed_output M ∘ fixed_output M) (fixed_output M)
             (graph_output (graph m))); [reflexivity|].
  intros _ x _. apply fixed_output_idem.
Qed.

Lemma selects_output_fixed M m :
  selects_output (with_fixed_outputs M m) <-> selects_output m.
Proof.
  unfold selects_output. simpl. rewrite Exists_fmap.
  apply Exists_proper; [|reflexivity]. intros out. simpl.
  by rewrite fixed_output_name.
Qed.

Lemma fmap_unselected {A} (sel : A -> bool) (f : A -> A) (l : list A) :
  (forall x, x ∈ l -> sel x = false) ->
  (fun x => if sel x then f x else x) <$> l = l.
Proof.
  induction l as [|x l IH]; intros H; simpl; [reflexivity|].
  rewrite (H x) by apply list_elem_of_here.
  f_equal. apply IH. intros y Hy. apply H. by apply list_elem_of_further.
Qed.

Lemma lines_unselected {A} (sel : A -> bool) (f : A -> list Line) (l : list A) :
  (forall x, x ∈ l -> sel x = false) ->
  concat ((fun x => if sel x then f x else []) <$> l) = [].
Proof.
  induction l as [|x l IH]; intros H; simpl; [reflexivity|].
  rewrite (H x) by apply list_elem_of_here. simpl.
  apply IH. intros y Hy. apply H. by apply list_elem_of_further.
Qed.

(** X1: when no graph input carries a selected name, [fix_input_shapes]
    prints its banner and nothing else, and returns the very graph it was
    given: no warning, no error. *)
Theorem fix_input_shapes_no_match (m : ModelProto) (L : Z) (w : World) :
  (forall inp, inp ∈ graph_input (graph m) -> vi_name inp ∉ input_selector) ->
  fix_input_shapes m L w =
    ({| files := files w; stdout := stdout w ++ [input_banner L] |}, Returned m).
Proof.
  intros H. rewrite fix_input_shapes_result.
  2: { right. intros (inp & Hin & Hsel)%Exists_exists. by apply (H inp). }
  assert (Hsel : forall inp, inp ∈ graph_input (graph m) ->
            bool_decide (vi_name inp ∈ input_selector) = false)
    by (intros inp Hin; apply bool_decide_eq_false, H, Hin).
  unfold fix_input_lines.
  rewrite (lines_unselected (fun inp => bool_decide (vi_name inp ∈ input_selector))
             _ _ Hsel).
  unfold with_fixed_inputs, fixed_input.
  rewrite (fmap_unselected (fun inp => bool_decide (vi_name inp ∈ input_selector))
             _ _ Hsel).
  destruct m as [iv ops [ns ts ins outs]]. reflexivity.
Qed.

Lemma fix_input_shapes_no_match_witness :
  fix_input_shapes m_speech 512 w0 =
    ({| files := ∅; stdout := [input_banner 512] |}, Returned m_speech).
Proof.
  apply (fix_input_shapes_no_match m_speech 512 w0).
  intros inp Hin. apply list_elem_of_singleton in Hin as ->.
  apply (proj1 (bool_decide_eq_false _)). reflexivity.
Defined.

(** X2: when no graph output carries a selected name, [fix_output_shapes]
    prints its banner and nothing else, and returns the very graph it was
    given. *)
Theorem fix_output_shapes_no_match (m : ModelProto) (M : Z) (w : World) :
  (forall out, out ∈ graph_output (graph m) -> vi_name out ∉ output_selector) ->
  fix_output_shapes m M w =
    ({| files := files w; stdout := stdout w ++ [output_banner M] |}, Returned m).
Proof.
  intros H. rewrite fix_output_shapes_result.
  2: { right. intros (out & Hin & Hsel)%Exists_exists. by apply (H out). }
  assert (Hsel : forall out, out ∈ graph_output (graph m) ->
            bool_decide (vi_name out ∈ output_selector) = false)
    by (intros out Hin; apply bool_decide_eq_false, H, Hin).
  unfold fix_output_lines.
  rewrite (lines_unselected (fun out => bool_decide (vi_name out ∈ output_selector))
             _ _ Hsel).
  unfold with_fixed_outputs, fixed_output.
  rewrite (fmap_unselected (fun out => bool_decide (vi_name out ∈ output_selector))
             _ _ Hsel).
  destruct m as [iv ops [ns ts ins outs]]. reflexivity.
Qed.

Lemma fix_output_shapes_no_match_witness :
  fix_output_shapes m_speech 3 w0 =
    ({| files := ∅; stdout := [output_banner 3] |}, Returned m_speech).
Proof.
  apply (fix_output_shapes_no_match m_speech 3 w0).
  intros out Hin. apply list_elem_of_singleton in Hin as ->.
  apply (proj1 (bool_decide_eq_false _)). reflexivity.
Defined.

(** X3: [fix_output_shapes] is idempotent.  For every graph and every
    [M] a signed 64-bit dimension holds the first run returns a graph; and
    whenever a run with [M] has returned a graph, a second run with the
    same [M] on that graph returns it again, touching no file. *)
Theorem fix_output_shapes_idempotent (m : ModelProto) (M : Z) (w : World) :
  (- 2 ^ 63 <= M < 2 ^ 63 ->
   exists w1 m1, fix_output_shapes m M w = (w1, Returned m1)) /\
  (forall w1 m1,
     fix_output_shapes m M w = (w1, Returned m1) ->
     forall w2, exists w3,
       fix_output_shapes m1 M w2 = (w3, Returned m1) /\ files w3 = files w2).
Proof.
  split.
  { intros HM. eexists _, _. apply fix_output_shapes_result. left.
    by apply int64_true. }
  intros w1 m1 Hrun w2.
  assert (Hok : int64 M = true \/ ~ selects_output m).
  { destruct (int64 M) eqn:HM; [by left|].
    destruct (decide (selects_output m)) as [Hsel|Hno]; [|by right].
    by rewrite (fix_output_shapes_out_of_range m M w HM Hsel) in Hrun. }
  rewrite (fix_output_shapes_result m M w Hok) in Hrun.
  injection Hrun as _ <-.
  rewrite fix_output_shapes_result, with_fixed_outputs_idem.
  - eexists. split; reflexivity.
  - destruct Hok as [?|Hno]; [by left | right].
    by rewrite selects_output_fixed.
Qed.

Lemma fix_output_shapes_idempotent_witness :
  exists w1 m1 w3,
    fix_output_shapes m_kokoro 3 w0 = (w1, Returned m1) /\
    fix_output_shapes m1 3 w0 = (w3, Returned m1).
Proof.
  destruct (fix_output_shapes_idempotent m_kokoro 3 w0) as [Hfirst Hagain].
  destruct Hfirst as (w1 & m1 & Hrun); [lia|].
  destruct (Hagain w1 m1 Hrun w0) as (w3 & Hrun' & _).
  exists w1, m1, w3. split; [exact Hrun | exact Hrun'].
Defined.

(** ** Output stabilizer: structural mode *)

Lemma rename_slots_map original intermediate done todo :
  rename_slots original intermediate (length done) todo (done ++ todo) =
  done ++ (rename original intermediate <$> todo).
Proof.
  revert done. induction todo as [|out rest IH]; intros done; simpl; [reflexivity|].
  assert (Hstep : forall x, done ++ x :: rest = (done ++ [x]) ++ rest)
    by (intros; rewrite <- app_assoc; reflexivity).
  unfold rename at 1. destruct (decide (out = original)) as [->|Hne].
  - replace (<[length done := intermediate]> (done ++ original :: rest))
      with ((done ++ [intermediate]) ++ rest).
    + specialize (IH (done ++ [intermediate])).
      rewrite length_app in IH. simpl in IH.
      replace (length done + 1)%nat with (S (length done)) in IH by lia.
      rewrite IH, <- app_assoc. reflexivity.
    + rewrite insert_app_r_alt by lia.
      rewrite Nat.sub_diag, <- app_assoc. reflexivity.
  - specialize (IH (done ++ [out])).
    rewrite length_app in IH. simpl in IH.
    replace (length done + 1)%nat with (S (length done)) in IH by lia.
    rewrite Hstep, IH, <- app_assoc. reflexivity.
Qed.

Lemma rename_output_map original intermediate n :
  rename_output original intermediate n =
  set_node_output (rename original intermediate <$> node_output n) n.
Proof.
  unfold rename_output. f_equal.
  apply (rename_slots_map original intermediate [] (node_output n)).
Qed.

Lemma can_pad_int64 h M : can_pad h M -> int64 M = true.
Proof. intros [HM _]. apply int64_true. lia. Qed.

Lemma np_zeros_run h M w :
  can_pad h M ->
  np_zeros h M w =
    (w, Returned {| nd_dtype := FLOAT; nd_shape := [M];
                    nd_bytes := replicate (Z.to_nat (4 * M)) 0 |}).
Proof.
  intros [HM Hfits]. unfold np_zeros.
  rewrite int64_true by lia. cbn [negb].
  destruct (M <? 0) eqn:E1; [apply Z.ltb_lt in E1; lia|].
  destruct (2 ^ 63 <=? 4 * M) eqn:E3; [apply Z.leb_le in E3; lia|].
  by rewrite Hfits.
Qed.

Lemma np_zeros_negative h M w :
  M < 0 ->
  np_zeros h M w =
    (w, Raised (ValueError (if - 2 ^ 63 <=? M
                            then "negative dimensions are not allowed"
                            else "Maximum allowed dimension exceeded"))).
Proof.
  intros HM. unfold np_zeros, int64.
  destruct (- 2 ^ 63 <=? M) eqn:E0; cbn [andb negb]; [|reflexivity].
  destruct (M <? 2 ^ 63) eqn:E1; [|apply Z.ltb_ge in E1; lia]. cbn [negb].
  destruct (M <? 0) eqn:E; [reflexivity | apply Z.ltb_ge in E; lia].
Qed.

Lemma np_zeros_refuses h M w :
  2 ^ 61 <= M -> exists e, np_zeros h M w = (w, Raised e).
Proof.
  intros HM. unfold np_zeros.
  destruct (negb (int64 M)); [by eexists|].
  destruct (M <? 0) eqn:E1; [apply Z.ltb_lt in E1; lia|].
  destruct (2 ^ 63 <=? 4 * M) eqn:E3; [by eexists|].
  apply Z.leb_gt in E3. lia.
Qed.

Lemma steady_np_zeros h M : steady (np_zeros h M).
Proof.
  unfold np_zeros.
  destruct (negb (int64 M)), (M <? 0), (2 ^ 63 <=? 4 * M), (fits h M); steady.
Qed.

Lemma np_array_int64_run v w :
  int64 v = true ->
  np_array_int64 [v] w =
    (w, Returned {| nd_dtype := INT64; nd_shape := [1]; nd_bytes := le64 v |}).
Proof.
  intros H. unfold np_array_int64. simpl. rewrite H. reflexivity.
Qed.

Lemma steady_np_array_int64 l : steady (np_array_int64 l).
Proof. unfold np_array_int64. destruct (forallb int64 l); steady. Qed.

Lemma pad_output_run original M out w :
  int64 M = true ->
  pad_output original M out w = (w, Returned (padded_output original M out)).
Proof.
  intros H. unfold pad_output, padded_output. case_decide; [|reflexivity].
  rewrite clear_dims_nil.
  by erewrite bind_returned by (by apply add_dim_value_run).
Qed.

Lemma steady_pad_output original M out : steady (pad_output original M out).
Proof.
  unfold pad_output. case_decide; steady. apply steady_add_dim_value.
Qed.

Lemma steady_add_output_padding h m M : steady (add_output_padding h m M).
Proof.
  unfold add_output_padding. steady.
  destruct (vi_name <$> filter _ _) as [|original rest]; [steady|].
  destruct (list_find _ _) as [[i p]|]; [|steady].
  steady;
    first [apply steady_np_zeros | apply steady_np_array_int64 | apply steady_pad_output].
Qed.

Lemma add_output_padding_no_target h m M w :
  output_names m = [] ->
  add_output_padding h m M w =
    ({| files := files w;
        stdout := stdout w ++ [padding_banner; no_target_warning] |},
     Returned m).
Proof.
  intros H. unfold add_output_padding.
  erewrite bind_returned by apply print_run.
  unfold output_names, output_selector in H. rewrite H.
  erewrite bind_returned by apply print_run.
  unfold mret, Py_ret. simpl. rewrite <- app_assoc. reflexivity.
Qed.

Lemma designated_output_names m original :
  designated_output m = Some original ->
  exists rest, output_names m = original :: rest.
Proof.
  unfold designated_output. destruct (output_names m) as [|x rest]; simpl; [done|].
  intros [= ->]. by exists rest.
Qed.

Lemma add_output_padding_no_producer h m M w original :
  designated_output m = Some original ->
  producer original m = None ->
  add_output_padding h m M w =
    ({| files := files w;
        stdout := stdout w ++ [padding_banner; no_producer_warning original] |},
     Returned m).
Proof.
  intros [rest H]%designated_output_names Hp. unfold add_output_padding.
  erewrite bind_returned by apply print_run.
  unfold output_names, output_selector in H. rewrite H.
  unfold producer in Hp. rewrite Hp.
  erewrite bind_returned by apply print_run.
  unfold mret, Py_ret. simpl. rewrite <- app_assoc. reflexivity.
Qed.

Lemma add_output_padding_padded h m M w original i p :
  can_pad h M ->
  designated_output m = Some original ->
  producer original m = Some (i, p) ->
  add_output_padding h m M w =
    ({| files := files w;
        stdout := stdout w ++ padding_lines original (op_type p) M |},
     Returned (padded m M original i)).
Proof.
  intros HM [rest H]%designated_output_names Hp. unfold add_output_padding.
  assert (H64 := can_pad_int64 _ _ HM).
  erewrite bind_returned by apply print_run.
  unfold output_names, output_selector in H. rewrite H.
  unfold producer in Hp. rewrite Hp.
  erewrite bind_returned by apply print_run.
  erewrite bind_returned by apply print_run.
  erewrite bind_returned by (apply np_zeros_run; exact HM).
  erewrite bind_returned by (by apply np_array_int64_run).
  erewrite bind_returned by (by apply np_array_int64_run).
  erewrite bind_returned by (by apply np_array_int64_run).
  erewrite bind_returned
    by (apply for_each_quiet; intros; by apply pad_output_run).
  erewrite bind_returned by apply print_run.
  erewrite bind_returned by apply print_run.
  unfold mret, Py_ret. cbn [files stdout].
  f_equal. f_equal. rewrite <- !app_assoc. reflexivity.
Qed.

Lemma add_output_padding_raises h m M w original i p :
  M < 0 ->
  designated_output m = Some original ->
  producer original m = Some (i, p) ->
  add_output_padding h m M w =
    ({| files := files w;
        stdout := stdout w ++
          [padding_banner;
           [Text "  Original output: "; Str original];
           [Text "  Producer node: "; Str (op_type p)]] |},
     Raised (ValueError (if - 2 ^ 63 <=? M
                         then "negative dimensions are not allowed"
                         else "Maximum allowed dimension exceeded"))).
Proof.
  intros HM [rest H]%designated_output_names Hp. unfold add_output_padding.
  erewrite bind_returned by apply print_run.
  unfold output_names, output_selector in H. rewrite H.
  unfold producer in Hp. rewrite Hp.
  erewrite bind_returned by apply print_run.
  erewrite bind_returned by apply print_run.
  erewrite bind_raised by (apply np_zeros_negative; exact HM).
  cbn [files stdout]. rewrite <- !app_assoc. reflexivity.
Qed.

(** A length of 2^61 or more is refused too, at the same point. *)
Lemma add_output_padding_refuses h m M w original i p :
  2 ^ 61 <= M ->
  designated_output m = Some original ->
  producer original m = Some (i, p) ->
  exists e,
    add_output_padding h m M w =
      ({| files := files w;
          stdout := stdout w ++
            [padding_banner;
             [Text "  Original output: "; Str original];
             [Text "  Producer node: "; Str (op_type p)]] |},
       Raised e).
Proof.
  intros HM [rest H]%designated_output_names Hp. unfold add_output_padding.
  erewrite bind_returned by apply print_run.
  unfold output_names, output_selector in H. rewrite H.
  unfold producer in Hp. rewrite Hp.
  erewrite bind_returned by apply print_run.
  erewrite bind_returned by apply print_run.
  edestruct (np_zeros_refuses h M) as [e He]; [exact HM|].
  exists e. erewrite bind_raised by apply He.
  cbn [files stdout]. rewrite <- !app_assoc. reflexivity.
Qed.

Lemma unpadded_ne original : original +:+ "_unpadded" ≠ original.
Proof.
  induction original as [|a s IH]; intros H.
  - discriminate H.
  - apply IH. change (String a (s +:+ "_unpadded") = String a s) in H.
    by injection H.
Qed.

Lemma producer_lookup original m i p :
  producer original m = Some (i, p) ->
  graph_node (graph m) !! i = Some p /\ original ∈ node_output p.
Proof.
  unfold producer. intros (Hi & Hin & _)%list_find_Some. by split.
Qed.

Lemma alter_lookup {A} (f : A -> A) (l : list A) i x :
  l !! i = Some x -> alter f i l = <[i := f x]> l.
Proof.
  revert i. induction l as [|y l IH]; intros [|i] H; simpl in *; try done.
  - by injection H as ->.
  - f_equal. by apply IH.
Qed.

Lemma padded_nodes m M original i p :
  producer original m = Some (i, p) ->
  graph_node (graph (padded m M original i)) =
    <[i := set_node_output
             (rename original (original +:+ "_unpadded") <$> node_output p) p]>
      (graph_node (graph m))
    ++ [concat_node original; slice_node original].
Proof.
  intros [Hi _]%producer_lookup. simpl.
  rewrite (alter_lookup _ _ _ _ Hi), rename_output_map, <- app_assoc.
  reflexivity.
Qed.

Lemma le_decode_le64 v : le_decode (le64 v) = v mod 2 ^ 64.
Proof.
  unfold le64, le_decode. cbn [seq fmap list_fmap foldr].
  change 255 with (Z.ones 8). rewrite !Z.land_ones by lia.
  rewrite !Z.shiftr_div_pow2 by lia.
  change (2 ^ (8 * Z.of_nat 0)) with 1.
  change (2 ^ (8 * Z.of_nat 1)) with 256.
  change (2 ^ (8 * Z.of_nat 2)) with (256 * 256).
  change (2 ^ (8 * Z.of_nat 3)) with (256 * 256 * 256).
  change (2 ^ (8 * Z.of_nat 4)) with (256 * 256 * 256 * 256).
  change (2 ^ (8 * Z.of_nat 5)) with (256 * 256 * 256 * 256 * 256).
  change (2 ^ (8 * Z.of_nat 6)) with (256 * 256 * 256 * 256 * 256 * 256).
  change (2 ^ (8 * Z.of_nat 7)) with (256 * 256 * 256 * 256 * 256 * 256 * 256).
  change (2 ^ 64) with (256 * 256 * 256 * 256 * 256 * 256 * 256 * 256).
  change (2 ^ 8) with 256.
  rewrite Z.div_1_r.
  rewrite <- !Z.div_div by lia.
  Z.to_euclidean_division_equations. lia.
Qed.






Lemma padded_output_name original M out :
  vi_name (padded_output original M out) = vi_name out.
Proof. unfold padded_output. by case_decide. Qed.

Lemma designated_output_declared m original :
  designated_output m = Some original ->
  exists out, out ∈ graph_output (graph m) /\ vi_name out = original.
Proof.
  intros [rest H]%designated_output_names. unfold output_names in H.
  assert (Hin : original ∈ vi_name <$>
            filter (fun out => vi_name out ∈ output_selector) (graph_output (graph m)))
    by (rewrite H; apply list_elem_of_here).
  apply list_elem_of_fmap in Hin as (out & -> & Hout%list_elem_of_filter).
  exists out. by destruct Hout.
Qed.


Lemma steady_outcome {A} (c : Py A) w1 w2 : steady c -> (c w1).2 = (c w2).2.
Proof. intros (lines & r & H). by rewrite !H. Qed.

(** C1, as stated, fails: [waveform] is a graph output the selector
    matches and a node produces it, yet [add_output_padding] rewires
    nothing, because the first matching output, [audio], has no
    producer. *)
Lemma first_match_decides :
  mkValueInfo "waveform" FLOAT [DimUnset] ∈ graph_output (graph m_orphan) /\
  "waveform" ∈ output_selector /\
  producer "waveform" m_orphan = Some (0%nat, mkNode "Relu" ["x"] ["waveform"] []) /\
  can_pad host 3 /\
  (add_output_padding host m_orphan 3 w0).2 = Returned m_orphan.
Proof.
  split; [apply list_elem_of_further, list_elem_of_here|].
  split; [apply list_elem_of_further, list_elem_of_here|].
  split; [reflexivity|]. split; [split; [lia | reflexivity]|]. reflexivity.
Qed.

(** C1, amended: in structural mode, when the designated output (the
    first graph output the selector matches) has a producer and numpy can
    make the zero array ([0 <= M < 2^61] and it fits in memory),
    [add_output_padding] returns a graph whose node list is the old one
    with the producer's output slots renamed (a slot holding the original
    name now holds [<original>_unpadded], every other slot is as it was),
    followed by a Concat node over the intermediate tensor and
    [padding_zeros] along axis 0 and a Slice node over the concatenated
    tensor whose output is the original name.  [padding_zeros] is a float
    constant of [M] zeros; the slice bounds are start 0, end [M], axis 0. *)
Theorem add_output_padding_rewires (h : Host) (m : ModelProto) (M : Z) (w : World)
    (original : string) (i : nat) (p : NodeProto) :
  can_pad h M ->
  designated_output m = Some original ->
  producer original m = Some (i, p) ->
  exists w' m',
    add_output_padding h m M w = (w', Returned m') /\
    graph_node (graph m) !! i = Some p /\
    original ∈ node_output p /\
    graph_node (graph m') =
      <[i := set_node_output
               (rename original (original +:+ "_unpadded") <$> node_output p) p]>
        (graph_node (graph m))
      ++ [concat_node original; slice_node original] /\
    graph_initializer (graph m') =
      graph_initializer (graph m)
      ++ [padding_zeros M; slice_bound "slice_starts" 0;
          slice_bound "slice_ends" M; slice_bound "slice_axes" 0] /\
    Forall (fun b => b = 0) (raw_data (padding_zeros M)) /\
    Z.of_nat (length (raw_data (padding_zeros M))) = 4 * M /\
    le_decode (raw_data (slice_bound "slice_starts" 0)) = 0 /\
    le_decode (raw_data (slice_bound "slice_ends" M)) = M /\
    le_decode (raw_data (slice_bound "slice_axes" 0)) = 0 /\
    (exists out, out ∈ graph_output (graph m') /\ vi_name out = original).
Proof.
  intros HM Hd Hp.
  exists {| files := files w;
            stdout := stdout w ++ padding_lines original (op_type p) M |},
         (padded m M original i).
  destruct (producer_lookup _ _ _ _ Hp) as [Hi Hin].
  split; [by apply add_output_padding_padded|].
  split; [exact Hi|]. split; [exact Hin|].
  split; [by apply padded_nodes|].
  split; [simpl; by rewrite <- app_assoc|].
  split; [apply Forall_replicate; reflexivity|].
  split; [simpl; rewrite length_replicate; destruct HM; lia|].
  split; [reflexivity|].
  split; [cbn [raw_data slice_bound]; rewrite le_decode_le64;
          apply Z.mod_small; destruct HM; lia|].
  split; [reflexivity|].
  destruct (designated_output_declared _ _ Hd) as (out & Hout & Hname).
  exists (padded_output original M out). split.
  - simpl. apply list_elem_of_fmap. by exists out.
  - by rewrite padded_output_name.
Qed.

Lemma add_output_padding_rewires_witness :
  exists w' m',
    add_output_padding host m_kokoro 3 w0 = (w', Returned m') /\
    graph_node (graph m') =
      [mkNode "Gather" ["tokens"; "table"] ["x"] [("axis", AttrInt 0)];
       mkNode "Mul" ["x"; "gain"] ["peak"; "audio_unpadded"] [];
       mkNode "Concat" ["audio_unpadded"; "padding_zeros"] ["audio_concat"]
              [("axis", AttrInt 0)];
       mkNode "Slice" ["audio_concat"; "slice_starts"; "slice_ends"; "slice_axes"]
              ["audio"] []].
Proof.
  destruct (add_output_padding_rewires host m_kokoro 3 w0 "audio" 1%nat n_vocoder)
    as (w' & m' & Hrun & _ & _ & Hnodes & _);
    [split; [lia | reflexivity] | reflexivity | reflexivity |].
  exists w', m'. split; [exact Hrun | exact Hnodes].
Defined.







(** ** Structural mode: the two warnings *)




(** C5, as stated, fails: the first selected output has no producer and a
    second selected output exists; the call returns the graph it was
    given, and the one warning it prints names the first output only. *)
Lemma no_producer_returns :
  output_names m_orphan = ["audio"; "waveform"] /\
  producer "audio" m_orphan = None /\
  add_output_padding host m_orphan 3 w0 =
    ({| files := ∅;
        stdout := [padding_banner;
                   [Text "  Warning: Could not find producer of "; Str "audio"]] |},
     Returned m_orphan).
Proof. repeat split; reflexivity. Qed.

(** C5, amended: when no node produces the designated output (the first
    graph output the selector matches), [add_output_padding] raises
    nothing: it prints one warning, which names that output, touches no
    file and returns the graph it was given. *)
Theorem add_output_padding_without_producer (h : Host) (m : ModelProto) (M : Z)
    (w : World) (original : string) :
  designated_output m = Some original ->
  producer original m = None ->
  add_output_padding h m M w =
    ({| files := files w;
        stdout := stdout w ++
          [padding_banner;
           [Text "  Warning: Could not find producer of "; Str original]] |},
     Returned m).
Proof. apply add_output_padding_no_producer. Qed.

Lemma add_output_padding_without_producer_witness :
  add_output_padding host m_orphan (-1) w0 =
    ({| files := ∅;
        stdout := [padding_banner;
                   [Text "  Warning: Could not find producer of "; Str "audio"]] |},
     Returned m_orphan).
Proof.
  apply (add_output_padding_without_producer host m_orphan (-1) w0 "audio");
    reflexivity.
Defined.

(** ** Further properties of structural mode *)

Lemma output_names_padded m M original i :
  output_names (padded m M original i) = output_names m.
Proof.
  unfold output_names. simpl.
  induction (graph_output (graph m)) as [|out outs IH]; [reflexivity|].
  rewrite fmap_cons.
  destruct (decide (vi_name out ∈ output_selector)) as [Hin|Hout].
  - rewrite !filter_cons_True by (by rewrite ?padded_output_name).
    rewrite !fmap_cons, padded_output_name. by f_equal.
  - rewrite !filter_cons_False by (by rewrite ?padded_output_name).
    exact IH.
Qed.

Lemma padded_initializer m M original i :
  graph_initializer (graph (padded m M original i)) =
  graph_initializer (graph m) ++ padding_constants M.
Proof. simpl. by rewrite <- app_assoc. Qed.

Lemma padded_length m M original i :
  length (graph_node (graph (padded m M original i))) =
  (length (graph_node (graph m)) + 2)%nat.
Proof. simpl. rewrite !length_app, length_alter. simpl. lia. Qed.

(** The node that ends a structural rewrite produces the designated name,
    so the rewritten graph again has a producer for it. *)
Lemma padded_has_producer m M original i :
  is_Some (producer original (padded m M original i)).
Proof.
  unfold producer. apply (list_find_elem_of _ _ (slice_node original)).
  - simpl. apply elem_of_app. right. apply list_elem_of_here.
  - simpl. apply list_elem_of_here.
Qed.

(** X4: structural mode is not idempotent.  When the first run pads (the
    designated output has a producer and numpy can make the zero array),
    a second run on the graph it returned pads again: it also returns,
    the graph then has four more nodes than the original and each of the
    four constants twice, so the initializer names are no longer
    distinct. *)
Theorem add_output_padding_twice (h : Host) (m : ModelProto) (M : Z) (w : World)
    (original : string) (i : nat) (p : NodeProto) :
  can_pad h M ->
  designated_output m = Some original ->
  producer original m = Some (i, p) ->
  exists w1 m1 w2 m2,
    add_output_padding h m M w = (w1, Returned m1) /\
    add_output_padding h m1 M w1 = (w2, Returned m2) /\
    graph_initializer (graph m2) =
      graph_initializer (graph m) ++ padding_constants M ++ padding_constants M /\
    length (graph_node (graph m2)) = (length (graph_node (graph m)) + 4)%nat /\
    ~ NoDup (t_name <$> graph_initializer (graph m2)).
Proof.
  intros HM Hd Hp.
  destruct (padded_has_producer m M original i) as [[j q] Hq].
  assert (Hd1 : designated_output (padded m M original i) = Some original)
    by (unfold designated_output; by rewrite output_names_padded).
  eexists _, (padded m M original i), _, (padded (padded m M original i) M original j).
  split; [by apply add_output_padding_padded|].
  split; [by apply (add_output_padding_padded _ _ _ _ _ _ _ HM Hd1 Hq)|].
  assert (Hinit : graph_initializer (graph (padded (padded m M original i) M original j)) =
            graph_initializer (graph m) ++ padding_constants M ++ padding_constants M)
    by (rewrite !padded_initializer, <- app_assoc; reflexivity).
  split; [exact Hinit|].
  split; [rewrite !padded_length; lia|].
  rewrite Hinit, !fmap_app. intros Hnd.
  apply NoDup_app in Hnd as (_ & _ & Hnd).
  apply NoDup_app in Hnd as (_ & Hnd & _).
  apply (Hnd "padding_zeros"); simpl; apply list_elem_of_here.
Qed.

Lemma add_output_padding_twice_witness :
  exists w1 m1 w2 m2,
    add_output_padding host m_kokoro 3 w0 = (w1, Returned m1) /\
    add_output_padding host m1 3 w1 = (w2, Returned m2) /\
    t_name <$> graph_initializer (graph m2) =
      ["gain"; "padding_zeros"; "slice_starts"; "slice_ends"; "slice_axes";
       "padding_zeros"; "slice_starts"; "slice_ends"; "slice_axes"].
Proof.
  destruct (add_output_padding_twice host m_kokoro 3 w0 "audio" 1%nat n_vocoder)
    as (w1 & m1 & w2 & m2 & H1 & H2 & Hinit & _);
    [split; [lia | reflexivity] | reflexivity | reflexivity |].
  exists w1, m1, w2, m2. split; [exact H1|]. split; [exact H2|].
  rewrite Hinit. reflexivity.
Defined.

(** X5: what structural mode leaves alone.  When it pads (designated
    output with a producer, zero array within numpy's reach) the returned
    graph has the inputs, the IR version and the opset of the graph it was
    given; every node but the producer is where it was, unchanged; and
    every declared output whose name is not the designated one is
    unchanged, also when the selector matches it. *)
Theorem add_output_padding_frame (h : Host) (m : ModelProto) (M : Z) (w : World)
    (original : string) (i : nat) (p : NodeProto) :
  can_pad h M ->
  designated_output m = Some original ->
  producer original m = Some (i, p) ->
  exists w' m',
    add_output_padding h m M w = (w', Returned m') /\
    files w' = files w /\
    graph_input (graph m') = graph_input (graph m) /\
    ir_version m' = ir_version m /\ opset_import m' = opset_import m /\
    (forall k n, k ≠ i -> graph_node (graph m) !! k = Some n ->
       graph_node (graph m') !! k = Some n) /\
    (forall k out, graph_output (graph m) !! k = Some out ->
       vi_name out ≠ original -> graph_output (graph m') !! k = Some out).
Proof.
  intros HM Hd Hp. eexists _, (padded m M original i).
  split; [by apply add_output_padding_padded|].
  split; [reflexivity|]. split; [reflexivity|]. split; [reflexivity|].
  split; [reflexivity|]. split.
  - intros k n Hk Hn. simpl. rewrite <- app_assoc.
    rewrite lookup_app_l by (rewrite length_alter; by apply lookup_lt_Some in Hn).
    rewrite list_lookup_alter_ne by done. exact Hn.
  - intros k out Hout Hname. simpl. rewrite list_lookup_fmap, Hout. simpl.
    unfold padded_output. by rewrite decide_False.
Qed.

Lemma add_output_padding_frame_witness :
  exists w' m',
    add_output_padding host m_kokoro 3 w0 = (w', Returned m') /\
    graph_input (graph m') = graph_input (graph m_kokoro) /\
    graph_node (graph m') !! 0%nat =
      Some (mkNode "Gather" ["tokens"; "table"] ["x"] [("axis", AttrInt 0)]).
Proof.
  destruct (add_output_padding_frame host m_kokoro 3 w0 "audio" 1%nat n_vocoder)
    as (w' & m' & Hrun & _ & Hin & _ & _ & Hnodes & _);
    [split; [lia | reflexivity] | reflexivity | reflexivity |].
  exists w', m'. split; [exact Hrun|]. split; [exact Hin|].
  apply Hnodes; [lia | reflexivity].
Defined.

(** X6: a negative length is refused only once padding is under way.  With
    a designated output that has a producer and [M < 0],
    [add_output_padding] raises numpy's [ValueError] after printing the
    producer, and touches no file: the message is that of a negative
    dimension when [M] is a signed 64-bit integer, that of a dimension
    out of range below it.  With no selected output, or no producer, the
    same [M] only draws the warning and the graph comes back. *)
Theorem add_output_padding_negative_length (h : Host) (m : ModelProto) (M : Z)
    (w : World) :
  M < 0 ->
  (forall original i p,
     designated_output m = Some original ->
     producer original m = Some (i, p) ->
     add_output_padding h m M w =
       ({| files := files w;
           stdout := stdout w ++
             [padding_banner;
              [Text "  Original output: "; Str original];
              [Text "  Producer node: "; Str (op_type p)]] |},
        Raised (ValueError (if - 2 ^ 63 <=? M
                            then "negative dimensions are not allowed"
                            else "Maximum allowed dimension exceeded")))) /\
  (forall original,
     designated_output m = Some original ->
     producer original m = None ->
     (add_output_padding h m M w).2 = Returned m) /\
  (output_names m = [] -> (add_output_padding h m M w).2 = Returned m).
Proof.
  intros HM. split; [|split].
  - intros original i p Hd Hp. by apply (add_output_padding_raises h m M w original i p).
  - intros original Hd Hp. by rewrite (add_output_padding_no_producer _ _ _ _ _ Hd Hp).
  - intros Hnames. by rewrite (add_output_padding_no_target _ _ _ _ Hnames).
Qed.

Lemma add_output_padding_negative_length_witness :
  (add_output_padding host m_kokoro (-1) w0).2 =
    Raised (ValueError "negative dimensions are not allowed") /\
  (add_output_padding host m_kokoro (- 2 ^ 63 - 1) w0).2 =
    Raised (ValueError "Maximum allowed dimension exceeded").
Proof.
  split.
  - destruct (add_output_padding_negative_length host m_kokoro (-1) w0)
      as [H _]; [lia|].
    rewrite (H "audio" 1%nat n_vocoder); reflexivity.
  - destruct (add_output_padding_negative_length host m_kokoro (- 2 ^ 63 - 1) w0)
      as [H _]; [lia|].
    rewrite (H "audio" 1%nat n_vocoder); reflexivity.
Defined.

(** Fixing the inputs first changes nothing in what structural mode does:
    it ends the same way, on the graph with its inputs fixed. *)
Lemma add_output_padding_fixed_inputs h m L M w :
  add_output_padding h (with_fixed_inputs L m) M w =
    (let (w', r) := add_output_padding h m M w in
     (w', match r with
          | Returned m' => Returned (with_fixed_inputs L m')
          | Raised e => Raised e
          end)).
Proof.
  unfold add_output_padding, mbind, Py_bind. cbn [print].
  cbn [graph with_fixed_inputs set_graph set_graph_input graph_output graph_node].
  destruct (vi_name <$> filter _ _) as [|original rest]; [reflexivity|].
  destruct (list_find _ _) as [[i p]|]; [|reflexivity].
  cbn [print].
  destruct (np_zeros h M _) as [w1 [arr|e]]; [|reflexivity].
  destruct (np_array_int64 [0] w1) as [w2 [a0|e]]; [|reflexivity].
  destruct (np_array_int64 [M] w2) as [w3 [a1|e]]; [|reflexivity].
  destruct (np_array_int64 [0] w3) as [w4 [a2|e]]; [|reflexivity].
  cbn [graph_output set_graph_node set_graph_initializer].
  destruct (for_each _ _ w4) as [w5 [outs|e]]; reflexivity.
Qed.

(** X7: when [L] is a length a signed 64-bit dimension holds, the input
    rewrite and the output rewrite commute: run in either order they end
    the same way, with the same graph or the same exception, in
    declarative mode and in structural mode, whatever [M]. *)
Theorem fix_input_shapes_commutes (h : Host) (m : ModelProto) (L M : Z) (w : World) :
  - 2 ^ 63 <= L < 2 ^ 63 ->
  ((fix_input_shapes m L ≫= fun m1 => fix_output_shapes m1 M) w).2 =
  ((fix_output_shapes m M ≫= fun m1 => fix_input_shapes m1 L) w).2 /\
  ((fix_input_shapes m L ≫= fun m1 => add_output_padding h m1 M) w).2 =
  ((add_output_padding h m M ≫= fun m1 => fix_input_shapes m1 L) w).2.
Proof.
  intros HL%int64_true.
  assert (Hin : forall m' w', fix_input_shapes m' L w' =
            ({| files := files w';
                stdout := stdout w' ++ input_banner L
                          :: concat (fix_input_lines L <$> graph_input (graph m')) |},
             Returned (with_fixed_inputs L m')))
    by (intros; apply fix_input_shapes_result; by left).
  split.
  - erewrite bind_returned by apply Hin.
    destruct (int64 M) eqn:HM;
      [|destruct (decide (selects_output m)) as [Hsel|Hno]].
    + rewrite (fix_output_shapes_result (with_fixed_inputs L m)) by (by left).
      erewrite bind_returned by (apply fix_output_shapes_result; by left).
      by rewrite Hin.
    + rewrite (fix_output_shapes_out_of_range (with_fixed_inputs L m) M _ HM Hsel).
      by erewrite bind_raised by (by apply fix_output_shapes_out_of_range).
    + rewrite (fix_output_shapes_result (with_fixed_inputs L m)) by (by right).
      erewrite bind_returned by (apply fix_output_shapes_result; by right).
      by rewrite Hin.
  - erewrite bind_returned by apply Hin.
    rewrite add_output_padding_fixed_inputs.
    destruct (steady_add_output_padding h m M) as (lines & r & Hr).
    unfold mbind, Py_bind. rewrite !Hr.
    destruct r as [m'|e]; [|reflexivity]. by rewrite Hin.
Qed.

Lemma fix_input_shapes_commutes_witness :
  ((fix_input_shapes m_kokoro 512 ≫= fun m1 => add_output_padding host m1 3) w0).2 =
  ((add_output_padding host m_kokoro 3 ≫= fun m1 => fix_input_shapes m1 512) w0).2.
Proof.
  destruct (fix_input_shapes_commutes host m_kokoro 512 3 w0) as [_ H]; [lia|].
  exact H.
Defined.

(** ** Further properties of the rewiring *)

Lemma concat_ne original : original +:+ "_concat" ≠ original.
Proof.
  induction original as [|a s IH]; intros H.
  - discriminate H.
  - apply IH. change (String a (s +:+ "_concat") = String a s) in H.
    by injection H.
Qed.

Lemma rename_not_original original intermediate (outs : list string) :
  intermediate ≠ original -> original ∉ rename original intermediate <$> outs.
Proof.
  intros Hne (out & Heq & _)%list_elem_of_fmap. unfold rename in Heq.
  destruct (decide (out = original)); congruence.
Qed.

(** X18: the rewiring leaves one producer.  When the producer is the only
    node that lists the designated name, then in the graph structural mode
    returns the only node that lists it is the new Slice node, the last
    node of the graph: the old producer no longer does. *)
Theorem add_output_padding_single_producer (h : Host) (m : ModelProto) (M : Z)
    (w : World) (original : string) (i : nat) (p : NodeProto) :
  can_pad h M ->
  designated_output m = Some original ->
  producer original m = Some (i, p) ->
  (forall k n, k ≠ i -> graph_node (graph m) !! k = Some n ->
     original ∉ node_output n) ->
  exists w' m',
    add_output_padding h m M w = (w', Returned m') /\
    graph_node (graph m') !! S (length (graph_node (graph m))) =
      Some (slice_node original) /\
    forall k n, graph_node (graph m') !! k = Some n ->
      original ∈ node_output n -> k = S (length (graph_node (graph m))).
Proof.
  intros HM Hd Hp Honly. destruct (producer_lookup _ _ _ _ Hp) as [Hi _].
  eexists _, (padded m M original i).
  split; [by apply add_output_padding_padded|].
  rewrite (padded_nodes _ _ _ _ _ Hp).
  set (nodes := graph_node (graph m)) in *.
  set (p' := set_node_output _ p).
  assert (Hlen : length (<[i := p']> nodes) = length nodes) by apply length_insert.
  split.
  - rewrite lookup_app_r by lia. rewrite Hlen.
    replace (S (length nodes) - length nodes)%nat with 1%nat by lia. reflexivity.
  - intros k n Hk Hin.
    destruct (decide (k < length nodes)%nat) as [Hlt|Hge].
    + rewrite lookup_app_l in Hk by lia.
      destruct (decide (k = i)) as [->|Hki].
      * rewrite list_lookup_insert_eq in Hk by lia. injection Hk as <-.
        simpl in Hin. exfalso.
        exact (rename_not_original _ _ _ (unpadded_ne original) Hin).
      * rewrite list_lookup_insert_ne in Hk by done.
        by destruct (Honly k n Hki Hk).
    + rewrite lookup_app_r in Hk by lia. rewrite Hlen in Hk.
      destruct (k - length nodes)%nat as [|[|j]] eqn:Hoff; simpl in Hk.
      * injection Hk as <-. simpl in Hin.
        apply list_elem_of_singleton in Hin. by destruct (concat_ne original).
      * lia.
      * discriminate Hk.
Qed.

Lemma add_output_padding_single_producer_witness :
  exists w' m',
    add_output_padding host m_kokoro 3 w0 = (w', Returned m') /\
    producer "audio" m' = Some (3%nat, slice_node "audio").
Proof.
  destruct (add_output_padding_single_producer host m_kokoro 3 w0 "audio" 1%nat n_vocoder)
    as (w' & m' & Hrun & _ & _).
  - split; [lia | reflexivity].
  - reflexivity.
  - reflexivity.
  - intros [|[|[|k]]] n Hk Hn; simpl in Hn; try done.
    injection Hn as <-. simpl. intros H.
    apply list_elem_of_singleton in H. discriminate H.
  - exists w', m'. split; [exact Hrun|].
    rewrite (add_output_padding_padded host m_kokoro 3 w0 "audio" 1 n_vocoder) in Hrun;
      [| split; [lia | reflexivity] | reflexivity | reflexivity].
    injection Hrun as _ <-. reflexivity.
Defined.

Lemma le64_length v : length (le64 v) = 8%nat.
Proof. reflexivity. Qed.

Lemma le64_bytes v : Forall (fun b => 0 <= b < 256) (le64 v).
Proof.
  unfold le64. apply Forall_fmap, Forall_forall. intros k _. simpl.
  change 255 with (Z.ones 8). rewrite Z.land_ones by lia.
  apply Z.mod_pos_bound. lia.
Qed.

(** X19: the slice-end constant holds [M].  When structural mode pads
    (designated output with a producer, zero array within numpy's reach),
    the tensor [slice_ends] it appends is a one-element INT64 tensor whose
    raw data are eight bytes, each in [0, 256), that read back
    little-endian as [M]. *)
Theorem slice_ends_holds_M (h : Host) (m : ModelProto) (M : Z) (w : World)
    (original : string) (i : nat) (p : NodeProto) :
  can_pad h M ->
  designated_output m = Some original ->
  producer original m = Some (i, p) ->
  exists w' m' ends,
    add_output_padding h m M w = (w', Returned m') /\
    ends ∈ graph_initializer (graph m') /\
    t_name ends = "slice_ends" /\
    data_type ends = INT64 /\
    dims ends = [1] /\
    length (raw_data ends) = 8%nat /\
    Forall (fun b => 0 <= b < 256) (raw_data ends) /\
    le_decode (raw_data ends) = M.
Proof.
  intros HM Hd Hp. eexists _, (padded m M original i), (slice_bound "slice_ends" M).
  split; [by apply add_output_padding_padded|].
  split.
  - simpl. apply elem_of_app. right.
    apply list_elem_of_further, list_elem_of_here.
  - split; [reflexivity|]. split; [reflexivity|]. split; [reflexivity|].
    split; [reflexivity|]. split; [apply le64_bytes|].
    cbn [raw_data slice_bound]. rewrite le_decode_le64. apply Z.mod_small.
    destruct HM. lia.
Qed.

Lemma slice_ends_holds_M_witness :
  exists w' m' ends,
    add_output_padding host m_kokoro 192000 w0 = (w', Returned m') /\
    ends ∈ graph_initializer (graph m') /\
    raw_data ends = [0; 238; 2; 0; 0; 0; 0; 0].
Proof.
  destruct (slice_ends_holds_M host m_kokoro 192000 w0 "audio" 1%nat n_vocoder)
    as (w' & m' & ends & Hrun & Hin & _);
    [split; [lia | reflexivity] | reflexivity | reflexivity |].
  exists w', m', (slice_bound "slice_ends" 192000).
  split; [exact Hrun|]. split; [|reflexivity].
  rewrite (add_output_padding_padded host m_kokoro 192000 w0 "audio" 1 n_vocoder) in Hrun;
    [| split; [lia | reflexivity] | reflexivity | reflexivity].
  injection Hrun as _ <-. simpl.
  do 3 apply list_elem_of_further. apply list_elem_of_here.
Defined.

(** ** Introspector *)

Lemma fold_py_run {S A} (body : S -> A -> Py S) (f : S -> A -> S) (out : A -> Line) xs :
  (forall s x, emits (body s x) [out x] (Returned (f s x))) ->
  forall s, emits (fold_py body s xs) (out <$> xs) (Returned (foldl f s xs)).
Proof.
  intros Hbody. induction xs as [|x xs IH]; intros s; simpl.
  - apply emits_ret.
  - apply (emits_bind _ _ [out x] (f s x) (out <$> xs)); [apply Hbody | apply IH].
Qed.

Lemma report_into_emits acc t :
  emits (report_into acc t) [report_line t]
        (Returned (<[vi_name t := report_tensor t]> acc)).
Proof. intros w. reflexivity. Qed.

Lemma analyze_model_run h path m w :
  stored h w path = Some m ->
  analyze_model h path w =
    ({| files := files w; stdout := stdout w ++ analyze_lines path m |},
     Returned (analysis m)).
Proof.
  intros Hfile. unfold analyze_model.
  erewrite bind_returned by apply print_run.
  erewrite bind_returned
    by (unfold onnx_load, stored in *; cbn [files]; rewrite Hfile; reflexivity).
  erewrite bind_returned by apply print_run.
  erewrite bind_returned by (apply fold_py_run, report_into_emits).
  erewrite bind_returned by apply print_run.
  erewrite bind_returned by (apply fold_py_run, report_into_emits).
  erewrite bind_returned by apply print_run.
  unfold mret, Py_ret, analyze_lines, analysis, report_all. cbn [files stdout].
  f_equal. f_equal. rewrite <- !app_assoc. reflexivity.
Qed.

Lemma analyze_model_missing h path w :
  stored h w path = None ->
  analyze_model h path w =
    ({| files := files w; stdout := stdout w ++ [analyze_banner path] |},
     Raised (FileNotFoundError path)).
Proof.
  intros Hfile. unfold analyze_model.
  erewrite bind_returned by apply print_run.
  erewrite bind_raised
    by (unfold onnx_load, stored in *; cbn [files]; rewrite Hfile; reflexivity).
  reflexivity.
Qed.

Lemma report_all_lookup ts name :
  report_all ts !! name =
  report_tensor <$> last (filter (fun t => vi_name t = name) ts).
Proof.
  unfold report_all. induction ts as [|t ts IH] using rev_ind; [reflexivity|].
  rewrite foldl_app, filter_app. simpl.
  destruct (decide (vi_name t = name)) as [Heq|Hne].
  - rewrite filter_cons_True, filter_nil by exact Heq.
    rewrite last_snoc. subst name. by rewrite lookup_insert_eq.
  - rewrite filter_cons_False, filter_nil, app_nil_r by exact Hne.
    by rewrite lookup_insert_ne.
Qed.

(** C10: for a model stored at [path], [analyze_model] returns; every
    graph input and output is reported on a printed line, and in that
    report a dimension whose literal value is 0 appears as -1, exactly as
    a dimension with nothing set does.  The returned dictionary holds,
    under each name, the same report of the last tensor of that name. *)
Theorem analyze_model_zero_dim (h : Host) (path : string) (m : ModelProto) (w : World) :
  stored h w path = Some m ->
  exists w' info,
    analyze_model h path w = (w', Returned info) /\
    (forall t, t ∈ graph_input (graph m) ++ graph_output (graph m) ->
       [Text "  "; Str (vi_name t); Text ": "; Str (ti_dtype (report_tensor t));
        Text " "; ReprShape (report_dim <$> shape_dim t)] ∈ stdout w' /\
       forall j, shape_dim t !! j = Some (DimValue 0) ->
         (report_dim <$> shape_dim t) !! j = Some (SInt (-1))) /\
    (forall name, info_inputs info !! name =
       report_tensor <$> last (filter (fun t => vi_name t = name)
                                      (graph_input (graph m)))) /\
    (forall name, info_outputs info !! name =
       report_tensor <$> last (filter (fun t => vi_name t = name)
                                      (graph_output (graph m)))) /\
    (forall t, ti_shape (report_tensor t) = report_dim <$> shape_dim t) /\
    report_dim (DimValue 0) = SInt (-1) /\
    report_dim DimUnset = SInt (-1).
Proof.
  intros Hfile. eexists _, _. split; [by apply analyze_model_run|].
  cbn [stdout]. split; [|repeat split; try apply report_all_lookup].
  intros t Ht. split.
  - apply elem_of_app. right. unfold analyze_lines.
    apply elem_of_app in Ht as [Ht|Ht].
    + do 2 right. apply elem_of_app. left.
      apply list_elem_of_fmap. by exists t.
    + do 2 right. apply elem_of_app. right. right.
      apply elem_of_app. left. apply list_elem_of_fmap. by exists t.
  - intros j Hj. by rewrite list_lookup_fmap, Hj.
Qed.

Lemma analyze_model_zero_dim_witness :
  exists w' info,
    analyze_model host "in.onnx"
      {| files := {[ "in.onnx" :=
                       mkModel 8 [("", 17)]
                         (mkGraph [] [] [mkValueInfo "tokens" INT64 [DimValue 1; DimValue 0]]
                                  [mkValueInfo "audio" FLOAT [DimUnset]]) ]};
         stdout := [] |} = (w', Returned info) /\
    info_inputs info !! "tokens" = Some (mkTensorInfo [SInt 1; SInt (-1)] "INT64") /\
    info_outputs info !! "audio" = Some (mkTensorInfo [SInt (-1)] "FLOAT").
Proof.
  destruct (analyze_model_zero_dim host "in.onnx"
              (mkModel 8 [("", 17)]
                 (mkGraph [] [] [mkValueInfo "tokens" INT64 [DimValue 1; DimValue 0]]
                          [mkValueInfo "audio" FLOAT [DimUnset]]))
              {| files := {[ "in.onnx" :=
                       mkModel 8 [("", 17)]
                         (mkGraph [] [] [mkValueInfo "tokens" INT64 [DimValue 1; DimValue 0]]
                                  [mkValueInfo "audio" FLOAT [DimUnset]]) ]};
                 stdout := [] |})
    as (w' & info & Hrun & _ & Hin & Hout & _); [reflexivity|].
  exists w', info. split; [exact Hrun|]. split.
  - rewrite Hin. reflexivity.
  - rewrite Hout. reflexivity.
Defined.

(** X8: [analyze_model] only reads: whatever the path and the world, the
    files after the call are the files before it; and a path that holds no
    model makes it raise [FileNotFoundError] when only its banner has been
    printed. *)
Theorem analyze_model_read_only (h : Host) (path : string) (w : World) :
  files (analyze_model h path w).1 = files w /\
  (stored h w path = None ->
     analyze_model h path w =
       ({| files := files w; stdout := stdout w ++ [analyze_banner path] |},
        Raised (FileNotFoundError path))).
Proof.
  split; [|apply analyze_model_missing].
  destruct (stored h w path) as [m|] eqn:Hfile.
  - by rewrite (analyze_model_run _ _ _ _ Hfile).
  - by rewrite (analyze_model_missing _ _ _ Hfile).
Qed.

Lemma analyze_model_read_only_witness :
  analyze_model host "missing.onnx" w_disk =
    ({| files := files w_disk; stdout := [analyze_banner "missing.onnx"] |},
     Raised (FileNotFoundError "missing.onnx")).
Proof.
  destruct (analyze_model_read_only host "missing.onnx" w_disk) as [_ H].
  apply H. reflexivity.
Defined.

Lemma filter_unique_name (ts : list ValueInfoProto) t :
  NoDup (vi_name <$> ts) -> t ∈ ts ->
  filter (fun x => vi_name x = vi_name t) ts = [t].
Proof.
  induction ts as [|x ts IH]; intros Hnd Hin; [by apply elem_of_nil in Hin|].
  rewrite fmap_cons in Hnd. apply NoDup_cons in Hnd as [Hx Hnd].
  apply elem_of_cons in Hin as [->|Hin].
  - rewrite filter_cons_True by reflexivity. f_equal.
    clear IH Hnd. induction ts as [|y ts IH]; [reflexivity|].
    rewrite fmap_cons in Hx. apply not_elem_of_cons in Hx as [Hne Hx].
    rewrite filter_cons_False by congruence. by apply IH.
  - rewrite filter_cons_False.
    + by apply IH.
    + intros Heq. apply Hx. rewrite Heq. by apply list_elem_of_fmap_2.
Qed.

Lemma filter_absent_name (ts : list ValueInfoProto) name :
  name ∉ vi_name <$> ts -> filter (fun x => vi_name x = name) ts = [].
Proof.
  induction ts as [|x ts IH]; intros Hn; [reflexivity|].
  rewrite fmap_cons in Hn. apply not_elem_of_cons in Hn as [Hne Hn].
  rewrite filter_cons_False by congruence. by apply IH.
Qed.

(** X9: the dictionary [analyze_model] returns is keyed by tensor name.
    When the graph inputs have distinct names, it holds the report of
    every input under that input's name; and it holds nothing under a
    name no input carries. *)
Theorem analyze_model_by_name (h : Host) (path : string) (m : ModelProto) (w : World) :
  stored h w path = Some m ->
  NoDup (vi_name <$> graph_input (graph m)) ->
  exists w' info,
    analyze_model h path w = (w', Returned info) /\
    (forall t, t ∈ graph_input (graph m) ->
       info_inputs info !! vi_name t = Some (report_tensor t)) /\
    (forall name, name ∉ vi_name <$> graph_input (graph m) ->
       info_inputs info !! name = None) /\
    info_opset info = snd <$> opset_import m /\
    info_ir_version info = ir_version m.
Proof.
  intros Hfile Hnd. eexists _, _. split; [by apply analyze_model_run|].
  simpl. split; [|split; [|split; reflexivity]].
  - intros t Ht. by rewrite report_all_lookup, filter_unique_name.
  - intros name Hname. by rewrite report_all_lookup, filter_absent_name.
Qed.

Lemma analyze_model_by_name_witness :
  exists w' info,
    analyze_model host "kokoro.onnx" w_disk = (w', Returned info) /\
    info_inputs info !! "style" = Some (mkTensorInfo [SInt 1; SInt 256] "FLOAT") /\
    info_inputs info !! "audio" = None.
Proof.
  destruct (analyze_model_by_name host "kokoro.onnx" m_kokoro w_disk)
    as (w' & info & Hrun & Hin & Hout & _).
  - reflexivity.
  - simpl. apply NoDup_cons. split.
    + intros H. apply list_elem_of_singleton in H. discriminate H.
    + apply NoDup_singleton.
  - exists w', info. split; [exact Hrun|]. split.
    + apply (Hin (mkValueInfo "style" FLOAT [DimValue 1; DimValue 256])).
      simpl. apply list_elem_of_further, list_elem_of_here.
    + apply Hout. simpl. intros H.
      apply elem_of_cons in H as [H|H]; [discriminate H|].
      apply list_elem_of_singleton in H. discriminate H.
Defined.

(** ** Validator and pipeline *)

Lemma fix_input_shapes_returned m L w w1 m1 :
  fix_input_shapes m L w = (w1, Returned m1) -> m1 = with_fixed_inputs L m.
Proof.
  intros Hrun.
  assert (Hok : int64 L = true \/ ~ selects_input m).
  { destruct (int64 L) eqn:HL; [by left|].
    destruct (decide (selects_input m)) as [Hsel|Hno]; [|by right].
    by rewrite (fix_input_shapes_out_of_range m L w HL Hsel) in Hrun. }
  rewrite (fix_input_shapes_result m L w Hok) in Hrun. by injection Hrun as _ <-.
Qed.

Lemma fix_output_shapes_returned m M w w1 m1 :
  fix_output_shapes m M w = (w1, Returned m1) -> m1 = with_fixed_outputs M m.
Proof.
  intros Hrun.
  assert (Hok : int64 M = true \/ ~ selects_output m).
  { destruct (int64 M) eqn:HM; [by left|].
    destruct (decide (selects_output m)) as [Hsel|Hno]; [|by right].
    by rewrite (fix_output_shapes_out_of_range m M w HM Hsel) in Hrun. }
  rewrite (fix_output_shapes_result m M w Hok) in Hrun. by injection Hrun as _ <-.
Qed.

(** Outside [can_pad] numpy makes no array. *)
Lemma np_zeros_fails h M w :
  ~ can_pad h M -> exists e, np_zeros h M w = (w, Raised e).
Proof.
  intros Hno. unfold np_zeros.
  destruct (negb (int64 M)); [by eexists|].
  destruct (M <? 0) eqn:E1; [by eexists|].
  destruct (2 ^ 63 <=? 4 * M) eqn:E3; [by eexists|].
  destruct (fits h M) eqn:E4; [|by eexists].
  destruct Hno. split; [|exact E4].
  apply Z.ltb_ge in E1. apply Z.leb_gt in E3. lia.
Qed.

Lemma add_output_padding_fails h m M w original i p :
  ~ can_pad h M ->
  designated_output m = Some original ->
  producer original m = Some (i, p) ->
  exists w' e, add_output_padding h m M w = (w', Raised e).
Proof.
  intros HM [rest H]%designated_output_names Hp. unfold add_output_padding.
  erewrite bind_returned by apply print_run.
  unfold output_names, output_selector in H. rewrite H.
  unfold producer in Hp. rewrite Hp.
  erewrite bind_returned by apply print_run.
  erewrite bind_returned by apply print_run.
  edestruct (np_zeros_fails h M) as [e He]; [exact HM|].
  eexists _, e. erewrite bind_raised by apply He. reflexivity.
Qed.

(** Whatever the host, structural mode has one graph it can return. *)
Lemma add_output_padding_returned h m M w w' m' :
  add_output_padding h m M w = (w', Returned m') -> m' = structural_result m M.
Proof.
  intros Hrun. unfold structural_result.
  destruct (designated_output m) as [original|] eqn:Hd.
  - destruct (producer original m) as [[i p]|] eqn:Hp.
    + destruct (decide (can_pad h M)) as [HM|HM].
      * rewrite (add_output_padding_padded h m M w original i p HM Hd Hp) in Hrun.
        by injection Hrun as _ <-.
      * destruct (add_output_padding_fails h m M w original i p HM Hd Hp)
          as (w1 & e & Hfail).
        rewrite Hfail in Hrun. discriminate Hrun.
    + rewrite (add_output_padding_no_producer h m M w original Hd Hp) in Hrun.
      by injection Hrun as _ <-.
  - rewrite add_output_padding_no_target in Hrun.
    + by injection Hrun as _ <-.
    + unfold designated_output in Hd. by destruct (output_names m).
Qed.

Lemma steady_transform h args m : steady (transform h args m).
Proof.
  unfold transform. apply steady_bind; [apply steady_fix_input_shapes|].
  intros m1. destruct (arg_add_padding args);
    [apply steady_add_output_padding | apply steady_fix_output_shapes].
Qed.

Lemma transformed_emits h args m :
  exists lines, emits (transform h args m) lines (transformed h args m).
Proof.
  destruct (steady_transform h args m) as (lines & r & H).
  exists lines. unfold transformed. by rewrite H.
Qed.

Lemma transform_outcome h args m wa :
  (transform h args m wa).2 = transformed h args m.
Proof.
  destruct (transformed_emits h args m) as [lines H]. by rewrite H.
Qed.

(** The graph the rewrite steps return does not depend on the host. *)
Lemma transformed_returned h args m m' :
  transformed h args m = Returned m' -> m' = rewritten args m.
Proof.
  unfold transformed, transform, rewritten, mbind, Py_bind.
  destruct (fix_input_shapes m _ _) as [w1 [m1|e]] eqn:H1; [|discriminate].
  apply fix_input_shapes_returned in H1 as ->.
  destruct (arg_add_padding args).
  - destruct (add_output_padding h _ _ w1) as [w2 [m2|e]] eqn:H2; [|discriminate].
    intros [= <-]. by apply add_output_padding_returned in H2.
  - destruct (fix_output_shapes _ _ w1) as [w2 [m2|e]] eqn:H2; [|discriminate].
    intros [= <-]. by apply fix_output_shapes_returned in H2.
Qed.

Lemma validate_model_valid h m :
  check_model h m = None ->
  emits (validate_model h m)
    [[Text NL; Text "=== Validating model ==="; Text NL];
     [Text "  Model is valid!"]] (Returned true).
Proof.
  intros H w. unfold validate_model. rewrite H.
  unfold mbind, Py_bind, print, mret, Py_ret. cbn [files stdout].
  rewrite <- app_assoc. reflexivity.
Qed.

Lemma validate_model_invalid h m e :
  check_model h m = Some e ->
  emits (validate_model h m)
    [[Text NL; Text "=== Validating model ==="; Text NL];
     [Text "  Validation error: "; Str e]] (Returned false).
Proof.
  intros H w. unfold validate_model. rewrite H.
  unfold mbind, Py_bind, print, mret, Py_ret. cbn [files stdout].
  rewrite <- app_assoc. reflexivity.
Qed.

Lemma onnx_load_run h path m w :
  stored h w path = Some m -> onnx_load h path w = (w, Returned m).
Proof. intros H. unfold onnx_load. by rewrite H. Qed.

Lemma onnx_save_run h m path file w :
  resolve h path = Some file ->
  onnx_save h m path w =
    ({| files := <[file := m]> (files w); stdout := stdout w |}, Returned tt).
Proof. intros H. unfold onnx_save. by rewrite H. Qed.

Lemma onnx_save_missing h m path w :
  resolve h path = None ->
  onnx_save h m path w = (w, Raised (FileNotFoundError path)).
Proof. intros H. unfold onnx_save. by rewrite H. Qed.

Lemma stored_saved h m path file f out :
  resolve h path = Some file ->
  stored h {| files := <[file := m]> f; stdout := out |} path = Some m.
Proof. intros H. unfold stored. rewrite H. apply lookup_insert_eq. Qed.

(** [main], from loading on, with the two rewrite steps taken together. *)
Lemma main_unfold h args w :
  main h args w =
  (analyze_model h (arg_input args) ≫= fun _ =>
   if arg_analyze_only args then mret None
   else
     match arg_output args with
     | None | Some EmptyString =>
         print [Text "Error: --output is required unless --analyze_only is set"];;
         mret (Some 1)
     | Some output =>
         print [Text NL; Text "Loading model from "; Str (arg_input args); Text "..."];;
         model ← onnx_load h (arg_input args);
         model ← transform h args model;
         ok ← validate_model h model;
         if (ok : bool) then
           print [Text NL; Text "Saving model to "; Str output; Text "..."];;
           onnx_save h model output;;
           print [Text "Done!"];;
           analyze_model h output;;
           print [Text (NL +:+ rule)];;
           print [Text "NEXT STEPS for full NPU support:"];;
           print [Text rule];;
           print [Text next_steps];;
           mret None
         else
           print [Text NL; Text "Model validation failed. Not saving."];;
           mret (Some 1)
     end) w.
Proof.
  unfold main, transform, mbind, Py_bind.
  destruct (analyze_model h (arg_input args) w) as [w1 [info|e]]; [|reflexivity].
  destruct (arg_analyze_only args); [reflexivity|].
  destruct (arg_output args) as [[|a o]|]; try reflexivity.
  destruct (print _ w1) as [w2 [[]|e]]; [|reflexivity].
  destruct (onnx_load _ _ w2) as [w3 [model|e]]; [|reflexivity].
  destruct (fix_input_shapes model _ w3) as [w4 [m1|e]]; reflexivity.
Qed.

(** What [main] does depends on the world only through what the input
    path holds: the lines it prints, the file it writes and the way it
    ends are the same from every world with that content. *)
Lemma main_run h args src :
  exists lines, forall w,
    stored h w (arg_input args) = src ->
    main h args w =
      ({| files := write_back (main_write h args src) (files w);
          stdout := stdout w ++ lines |},
       main_outcome h args src).
Proof.
  destruct src as [m|].
  2: { eexists. intros w Hw. rewrite main_unfold.
       erewrite bind_raised by (apply analyze_model_missing; exact Hw).
       reflexivity. }
  unfold main_write, main_outcome.
  destruct (arg_analyze_only args) eqn:Hao.
  { eexists. intros w Hw. rewrite main_unfold.
    py_step ltac:(apply analyze_model_run; exact Hw).
    rewrite Hao. py_done. }
  destruct (transformed_emits h args m) as [tl Ht].
  destruct (arg_output args) as [[|a o]|] eqn:Hout.
  - eexists. intros w Hw. rewrite main_unfold.
    py_step ltac:(apply analyze_model_run; exact Hw).
    rewrite Hao, Hout.
    py_step ltac:(apply print_run).
    py_done.
  - destruct (transformed h args m) as [m'|e].
    + destruct (check_model h m') as [msg|] eqn:Hc.
      * eexists. intros w Hw. rewrite main_unfold.
        py_step ltac:(apply analyze_model_run; exact Hw).
        rewrite Hao, Hout.
        py_step ltac:(apply print_run).
        py_step ltac:(apply onnx_load_run; exact Hw).
        py_step ltac:(apply Ht).
        py_step ltac:(apply (validate_model_invalid _ _ _ Hc)).
        py_step ltac:(apply print_run).
        destruct (resolve h (String a o)); py_done.
      * destruct (resolve h (String a o)) as [file|] eqn:Hres.
        -- eexists. intros w Hw. rewrite main_unfold.
           py_step ltac:(apply analyze_model_run; exact Hw).
           rewrite Hao, Hout.
           py_step ltac:(apply print_run).
           py_step ltac:(apply onnx_load_run; exact Hw).
           py_step ltac:(apply Ht).
           py_step ltac:(apply (validate_model_valid _ _ Hc)).
           py_step ltac:(apply print_run).
           py_step ltac:(apply onnx_save_run; exact Hres).
           py_step ltac:(apply print_run).
           py_step ltac:(apply analyze_model_run; apply stored_saved; exact Hres).
           py_step ltac:(apply print_run).
           py_step ltac:(apply print_run).
           py_step ltac:(apply print_run).
           py_step ltac:(apply print_run).
           py_done.
        -- eexists. intros w Hw. rewrite main_unfold.
           py_step ltac:(apply analyze_model_run; exact Hw).
           rewrite Hao, Hout.
           py_step ltac:(apply print_run).
           py_step ltac:(apply onnx_load_run; exact Hw).
           py_step ltac:(apply Ht).
           py_step ltac:(apply (validate_model_valid _ _ Hc)).
           py_step ltac:(apply print_run).
           erewrite bind_raised by (apply onnx_save_missing; exact Hres).
           py_done.
    + eexists. intros w Hw. rewrite main_unfold.
      py_step ltac:(apply analyze_model_run; exact Hw).
      rewrite Hao, Hout.
      py_step ltac:(apply print_run).
      py_step ltac:(apply onnx_load_run; exact Hw).
      erewrite bind_raised by apply Ht.
      py_done.
  - eexists. intros w Hw. rewrite main_unfold.
    py_step ltac:(apply analyze_model_run; exact Hw).
    rewrite Hao, Hout.
    py_step ltac:(apply print_run).
    py_done.
Qed.




(** C7: the rewrite is a function of the graph and the configuration.
    Two runs of the rewrite steps on the same graph with the same
    configuration that both return, return equal graphs, whatever the two
    worlds and the two hosts; on one host the steps end the same way from
    every world, also when they raise; and two runs of [main] that find
    the same model at the input path and both return [None] leave the
    same model at the output path. *)
Theorem pipeline_deterministic (h1 h2 : Host) (args : Args) (w1 w2 : World) :
  stored h1 w1 (arg_input args) = stored h2 w2 (arg_input args) ->
  (forall m wa wb m1 m2,
     (transform h1 args m wa).2 = Returned m1 ->
     (transform h2 args m wb).2 = Returned m2 ->
     m1 = m2) /\
  (forall m wa wb, (transform h1 args m wa).2 = (transform h1 args m wb).2) /\
  (arg_analyze_only args = false ->
   (main h1 args w1).2 = Returned None ->
   (main h2 args w2).2 = Returned None ->
   exists output m',
     arg_output args = Some output /\
     stored h1 (main h1 args w1).1 output = Some m' /\
     stored h2 (main h2 args w2).1 output = Some m').
Proof.
  intros Hsrc. split; [|split].
  - intros m wa wb m1 m2. rewrite !transform_outcome.
    intros H1%transformed_returned H2%transformed_returned. congruence.
  - intros m wa wb. by rewrite !transform_outcome.
  - intros Hao.
    destruct (main_run h1 args (stored h1 w1 (arg_input args))) as [l1 H1].
    destruct (main_run h2 args (stored h2 w2 (arg_input args))) as [l2 H2].
    rewrite (H1 w1 eq_refl), (H2 w2 eq_refl). cbn [fst snd]. clear H1 H2.
    rewrite <- Hsrc. unfold main_write, main_outcome.
    destruct (stored h1 w1 (arg_input args)) as [m|]; [|discriminate].
    rewrite Hao.
    destruct (arg_output args) as [[|a o]|]; try discriminate.
    destruct (transformed h1 args m) as [m1|e1] eqn:Ht1; [|discriminate].
    destruct (transformed h2 args m) as [m2|e2] eqn:Ht2;
      [|intros _; discriminate].
    apply transformed_returned in Ht1, Ht2. subst m1 m2.
    destruct (check_model h1 _); [discriminate|].
    destruct (resolve h1 (String a o)) as [f1|] eqn:Hr1; [|discriminate].
    intros _.
    destruct (check_model h2 _); [by destruct (resolve h2 (String a o))|].
    destruct (resolve h2 (String a o)) as [f2|] eqn:Hr2; [|discriminate].
    intros _. exists (String a o), (rewritten args m).
    split; [reflexivity|]. split; by apply stored_saved.
Qed.

Lemma pipeline_deterministic_witness :
  exists output m',
    arg_output args_static = Some output /\
    stored host (main host args_static w_disk).1 output = Some m' /\
    stored host (main host args_static w_busy).1 output = Some m'.
Proof.
  destruct (pipeline_deterministic host host args_static w_disk w_busy)
    as (_ & _ & Hsaved); [reflexivity|].
  apply Hsaved; [reflexivity | vm_compute; reflexivity | vm_compute; reflexivity].
Defined.

(** ** Further properties of the pipeline *)

Lemma transformed_padded h args m original i p :
  arg_add_padding args = true ->
  - 2 ^ 63 <= arg_seq_length args < 2 ^ 63 ->
  can_pad h (arg_max_audio_samples args) ->
  designated_output m = Some original ->
  producer original m = Some (i, p) ->
  transformed h args m =
    Returned (padded (with_fixed_inputs (arg_seq_length args) m)
                     (arg_max_audio_samples args) original i).
Proof.
  intros Hmode HL HM Hd Hp. unfold transformed, transform.
  erewrite bind_returned
    by (apply fix_input_shapes_result; left; by apply int64_true).
  rewrite Hmode.
  by rewrite (add_output_padding_padded h
                (with_fixed_inputs (arg_seq_length args) m) _ _ original i p HM Hd Hp).
Qed.

Lemma transformed_negative h args m original i p :
  arg_add_padding args = true ->
  - 2 ^ 63 <= arg_seq_length args < 2 ^ 63 ->
  arg_max_audio_samples args < 0 ->
  designated_output m = Some original ->
  producer original m = Some (i, p) ->
  transformed h args m =
    Raised (ValueError (if - 2 ^ 63 <=? arg_max_audio_samples args
                        then "negative dimensions are not allowed"
                        else "Maximum allowed dimension exceeded")).
Proof.
  intros Hmode HL HM Hd Hp. unfold transformed, transform.
  erewrite bind_returned
    by (apply fix_input_shapes_result; left; by apply int64_true).
  rewrite Hmode.
  by rewrite (add_output_padding_raises h
                (with_fixed_inputs (arg_seq_length args) m) _ _ original i p HM Hd Hp).
Qed.

Lemma transformed_no_target h args m :
  arg_add_padding args = true ->
  - 2 ^ 63 <= arg_seq_length args < 2 ^ 63 ->
  output_names m = [] ->
  transformed h args m = Returned (with_fixed_inputs (arg_seq_length args) m).
Proof.
  intros Hmode HL Hnames. unfold transformed, transform.
  erewrite bind_returned
    by (apply fix_input_shapes_result; left; by apply int64_true).
  rewrite Hmode.
  by rewrite (add_output_padding_no_target h
                (with_fixed_inputs (arg_seq_length args) m) _ _ Hnames).
Qed.

Lemma main_write_path h args src file m' :
  main_write h args src = Some (file, m') ->
  exists output, arg_output args = Some output /\ resolve h output = Some file.
Proof.
  unfold main_write. destruct src as [m|]; [|done].
  destruct (arg_analyze_only args); [done|].
  destruct (arg_output args) as [[|a o]|]; try done.
  destruct (transformed h args m) as [m1|e]; [|done].
  destruct (check_model h m1); [done|].
  destruct (resolve h (String a o)) as [f|] eqn:Hres; [|done].
  intros [= <- _]. by exists (String a o).
Qed.

(** The input path and the output path may name one file: the run then
    overwrites the model it read. *)
Lemma main_in_place_overwrites :
  stored host w_disk "kokoro.onnx" = Some m_kokoro /\
  (main host args_in_place w_disk).2 = Returned None /\
  stored host (main host args_in_place w_disk).1 "kokoro.onnx" = Some m_static.
Proof. repeat split; vm_compute; reflexivity. Qed.

(** X10: in analyze-only mode [main] reports and does nothing else: with a
    model at the input path it prints the analysis of that model, returns
    [None] and leaves every file as it was, whatever the output path, the
    lengths and the mode; the checker is never consulted. *)
Theorem main_analyze_only (h : Host) (args : Args) (w : World) (m : ModelProto) :
  arg_analyze_only args = true ->
  stored h w (arg_input args) = Some m ->
  main h args w =
    ({| files := files w;
        stdout := stdout w ++ analyze_lines (arg_input args) m |},
     Returned None).
Proof.
  intros Hao Hw. rewrite main_unfold.
  py_step ltac:(apply analyze_model_run; exact Hw).
  rewrite Hao. reflexivity.
Qed.

Lemma main_analyze_only_witness :
  (main host_strict
        (mkArgs "kokoro.onnx" (Some "kokoro_static.onnx") 512 3 true true) w_disk).2 =
    Returned None /\
  files (main host_strict
              (mkArgs "kokoro.onnx" (Some "kokoro_static.onnx") 512 3 true true)
              w_disk).1 = files w_disk.
Proof.
  rewrite (main_analyze_only host_strict
             (mkArgs "kokoro.onnx" (Some "kokoro_static.onnx") 512 3 true true)
             w_disk m_kokoro); [split; reflexivity | reflexivity | reflexivity].
Defined.

(** X11: without an output path (none given, or the empty one) a run that
    is not analyze-only stops after the first analysis: it prints the
    analysis and the error line, returns 1 and leaves every file as it
    was; the model is neither rewritten nor checked. *)
Theorem main_requires_output (h : Host) (args : Args) (w : World) (m : ModelProto) :
  arg_analyze_only args = false ->
  no_output args ->
  stored h w (arg_input args) = Some m ->
  main h args w =
    ({| files := files w;
        stdout := stdout w ++ analyze_lines (arg_input args) m
                  ++ [output_required_error] |},
     Returned (Some 1)).
Proof.
  intros Hao Hout Hw. rewrite main_unfold.
  py_step ltac:(apply analyze_model_run; exact Hw).
  rewrite Hao.
  destruct Hout as [Hout|Hout]; rewrite Hout;
    py_step ltac:(apply print_run); py_done.
Qed.

Lemma main_requires_output_witness :
  (main host (mkArgs "kokoro.onnx" (Some "") 512 3 true false) w_disk).2 =
    Returned (Some 1).
Proof.
  rewrite (main_requires_output host
             (mkArgs "kokoro.onnx" (Some "") 512 3 true false) w_disk m_kokoro);
    [reflexivity | reflexivity | right; reflexivity | reflexivity].
Defined.

(** X12: a missing input file ends every run at the first step: [main]
    raises [FileNotFoundError] when only the analysis banner has been
    printed, in every mode, and leaves every file as it was. *)
Theorem main_missing_input (h : Host) (args : Args) (w : World) :
  stored h w (arg_input args) = None ->
  main h args w =
    ({| files := files w;
        stdout := stdout w ++ [analyze_banner (arg_input args)] |},
     Raised (FileNotFoundError (arg_input args))).
Proof.
  intros Hw. rewrite main_unfold.
  erewrite bind_raised by (apply analyze_model_missing; exact Hw).
  reflexivity.
Qed.

Lemma main_missing_input_witness :
  (main host args_static w0).2 =
    Raised (FileNotFoundError "kokoro.onnx").
Proof.
  rewrite (main_missing_input host args_static w0); reflexivity.
Defined.

(** X13: [main] writes to one file at most, the file its output path
    names: every file the output path does not resolve to holds after the
    run what it held before, however the run ends.  (Another spelling of
    the output path names the same file, and is not covered.) *)
Theorem main_touches_output_only (h : Host) (args : Args) (w : World) (file : string) :
  (forall output, arg_output args = Some output -> resolve h output ≠ Some file) ->
  files (main h args w).1 !! file = files w !! file.
Proof.
  intros Hfile.
  destruct (main_run h args (stored h w (arg_input args))) as [lines H].
  rewrite (H w eq_refl). cbn [fst files]. unfold write_back.
  destruct (main_write _ _ _) as [[f m']|] eqn:Hwrite; [|reflexivity].
  apply main_write_path in Hwrite as (output & Hout & Hres).
  apply lookup_insert_ne. intros ->. by destruct (Hfile output Hout).
Qed.

Lemma main_touches_output_only_witness :
  files (main host args_static w_busy).1 !! "kokoro.onnx" = Some m_kokoro /\
  files (main host args_static w_busy).1 !! "other.onnx" = Some m_speech.
Proof.
  split.
  - rewrite (main_touches_output_only host args_static w_busy "kokoro.onnx");
      [reflexivity|].
    intros output [= <-]. vm_compute. discriminate.
  - rewrite (main_touches_output_only host args_static w_busy "other.onnx");
      [reflexivity|].
    intros output [= <-]. vm_compute. discriminate.
Defined.

(** X14: when a run that is not analyze-only returns [None], a model was
    saved: there was a model at the input path, the two rewrite steps
    returned a graph, the checker accepted it, the output path named a
    file that could be written, and the output path now holds that graph.
    Every other end of such a run is 1 or an exception. *)
Theorem main_none_means_saved (h : Host) (args : Args) (w : World) :
  arg_analyze_only args = false ->
  (main h args w).2 = Returned None ->
  exists output file m m',
    arg_output args = Some output /\
    resolve h output = Some file /\
    stored h w (arg_input args) = Some m /\
    (transform h args m w).2 = Returned m' /\
    check_model h m' = None /\
    files (main h args w).1 = <[file := m']> (files w) /\
    stored h (main h args w).1 output = Some m'.
Proof.
  intros Hao.
  destruct (main_run h args (stored h w (arg_input args))) as [lines H].
  rewrite (H w eq_refl). cbn [fst snd files]. clear H.
  unfold main_write, main_outcome.
  destruct (stored h w (arg_input args)) as [m|]; [|discriminate].
  rewrite Hao.
  destruct (arg_output args) as [[|a o]|]; try discriminate.
  destruct (transformed h args m) as [m'|e] eqn:Htr; [|discriminate].
  destruct (check_model h m') eqn:Hc; [discriminate|].
  destruct (resolve h (String a o)) as [file|] eqn:Hres; [|discriminate].
  intros _. exists (String a o), file, m, m'. rewrite transform_outcome.
  repeat split; try done. by apply stored_saved.
Qed.

Lemma main_none_means_saved_witness :
  exists m', stored host (main host args_static w_disk).1 "kokoro_static.onnx" = Some m'.
Proof.
  destruct (main_none_means_saved host args_static w_disk)
    as (output & file & m & m' & Hout & _ & _ & _ & _ & _ & Hstored).
  - reflexivity.
  - vm_compute. reflexivity.
  - exists m'. injection Hout as <-. exact Hstored.
Defined.

(** X15: structural mode with a negative length saves nothing: when the
    sequence length is one protobuf accepts, the stored graph has a
    designated output with a producer and [M < 0], [main] ends with
    numpy's [ValueError] (for a negative dimension, or below the signed
    64-bit range for a dimension out of range), the checker is not
    reached and every file is as it was. *)
Theorem main_negative_length (h : Host) (args : Args) (w : World) (output : string)
    (m : ModelProto) (original : string) (i : nat) (p : NodeProto) :
  arg_analyze_only args = false ->
  arg_add_padding args = true ->
  arg_output args = Some output ->
  output ≠ "" ->
  stored h w (arg_input args) = Some m ->
  - 2 ^ 63 <= arg_seq_length args < 2 ^ 63 ->
  arg_max_audio_samples args < 0 ->
  designated_output m = Some original ->
  producer original m = Some (i, p) ->
  (main h args w).2 =
    Raised (ValueError (if - 2 ^ 63 <=? arg_max_audio_samples args
                        then "negative dimensions are not allowed"
                        else "Maximum allowed dimension exceeded")) /\
  files (main h args w).1 = files w.
Proof.
  intros Hao Hmode Hout Hne Hw HL HM Hd Hp.
  destruct (main_run h args (Some m)) as [lines H].
  rewrite (H w Hw). cbn [fst snd files]. clear H.
  unfold main_write, main_outcome.
  rewrite Hao, Hout, (transformed_negative h args m original i p Hmode HL HM Hd Hp).
  destruct output as [|a o]; [done|]. split; reflexivity.
Qed.

Lemma main_negative_length_witness :
  (main host
        (mkArgs "kokoro.onnx" (Some "kokoro_static.onnx") 512 (-1) true false)
        w_disk).2 =
    Raised (ValueError "negative dimensions are not allowed").
Proof.
  apply (main_negative_length host
           (mkArgs "kokoro.onnx" (Some "kokoro_static.onnx") 512 (-1) true false)
           w_disk "kokoro_static.onnx" m_kokoro "audio" 1%nat n_vocoder);
    first [reflexivity | discriminate | simpl; lia].
Defined.

(** X16: end to end in structural mode.  Take a stored graph whose
    designated output has a producer, a sequence length protobuf accepts,
    a length [M] numpy can pad to, an output path that names a writable
    file, and a checker that accepts the rewritten graph.  Then [main]
    returns [None], that file (and no other) is written, and the output
    path then holds the padded graph built on the input-fixed graph: every
    selected input has shape [[1, L]] and every output of the designated
    name has shape [[M]]. *)
Theorem main_structural_end_to_end (h : Host) (args : Args) (w : World)
    (output file : string) (m : ModelProto)
    (original : string) (i : nat) (p : NodeProto) :
  arg_analyze_only args = false ->
  arg_add_padding args = true ->
  arg_output args = Some output ->
  output ≠ "" ->
  resolve h output = Some file ->
  stored h w (arg_input args) = Some m ->
  - 2 ^ 63 <= arg_seq_length args < 2 ^ 63 ->
  can_pad h (arg_max_audio_samples args) ->
  designated_output m = Some original ->
  producer original m = Some (i, p) ->
  check_model h (padded (with_fixed_inputs (arg_seq_length args) m)
                        (arg_max_audio_samples args) original i) = None ->
  exists m',
    (main h args w).2 = Returned None /\
    files (main h args w).1 = <[file := m']> (files w) /\
    stored h (main h args w).1 output = Some m' /\
    m' = padded (with_fixed_inputs (arg_seq_length args) m)
                (arg_max_audio_samples args) original i /\
    (forall inp, inp ∈ graph_input (graph m') ->
       vi_name inp ∈ input_selector ->
       shape_dim inp = [DimValue 1; DimValue (arg_seq_length args)]) /\
    (forall out, out ∈ graph_output (graph m') ->
       vi_name out = original ->
       shape_dim out = [DimValue (arg_max_audio_samples args)]).
Proof.
  intros Hao Hmode Hout Hne Hres Hw HL HM Hd Hp Hc.
  destruct (main_run h args (Some m)) as [lines H].
  rewrite (H w Hw). cbn [fst snd files]. clear H.
  unfold main_write, main_outcome.
  rewrite Hao, Hout, (transformed_padded h args m original i p Hmode HL HM Hd Hp), Hc.
  destruct output as [|a o]; [done|]. rewrite Hres. cbn [write_back].
  eexists. split; [reflexivity|]. split; [reflexivity|].
  split; [by apply stored_saved|]. split; [reflexivity|].
  split.
  - intros inp (x & -> & _)%list_elem_of_fmap. unfold fixed_input.
    case_bool_decide; simpl; [reflexivity | contradiction].
  - intros out (x & -> & _)%list_elem_of_fmap. unfold padded_output.
    case_decide; simpl; [reflexivity | contradiction].
Qed.

Lemma main_structural_end_to_end_witness :
  exists m',
    files (main host args_static w_disk).1 !! "kokoro_static.onnx" = Some m' /\
    graph_input (graph m') =
      [mkValueInfo "tokens" INT64 [DimValue 1; DimValue 512];
       mkValueInfo "style" FLOAT [DimValue 1; DimValue 256]] /\
    graph_output (graph m') = [mkValueInfo "audio" FLOAT [DimValue 3]].
Proof.
  destruct (main_structural_end_to_end host args_static w_disk
              "kokoro_static.onnx" "kokoro_static.onnx" m_kokoro "audio" 1%nat n_vocoder)
    as (m' & _ & Hfiles & _ & -> & _);
    [reflexivity | reflexivity | reflexivity | discriminate | reflexivity
    | reflexivity | simpl; lia | split; [simpl; lia | reflexivity]
    | reflexivity | reflexivity | reflexivity |].
  eexists. split; [rewrite Hfiles; apply lookup_insert_eq|].
  split; reflexivity.
Defined.

(** X17: structural mode that finds nothing to pad still saves.  When no
    graph output carries a selected name, the padding step only warns; if
    the sequence length is one protobuf accepts, the checker accepts the
    input-fixed graph and the output path names a writable file, [main]
    writes that graph, with no padding node in it, to that file and
    returns [None], whatever [M] is. *)
Theorem main_saves_unpadded (h : Host) (args : Args) (w : World)
    (output file : string) (m : ModelProto) :
  arg_analyze_only args = false ->
  arg_add_padding args = true ->
  arg_output args = Some output ->
  output ≠ "" ->
  resolve h output = Some file ->
  stored h w (arg_input args) = Some m ->
  - 2 ^ 63 <= arg_seq_length args < 2 ^ 63 ->
  output_names m = [] ->
  check_model h (with_fixed_inputs (arg_seq_length args) m) = None ->
  (main h args w).2 = Returned None /\
  files (main h args w).1 =
    <[file := with_fixed_inputs (arg_seq_length args) m]> (files w) /\
  stored h (main h args w).1 output =
    Some (with_fixed_inputs (arg_seq_length args) m) /\
  graph_node (graph (with_fixed_inputs (arg_seq_length args) m)) =
    graph_node (graph m) /\
  graph_output (graph (with_fixed_inputs (arg_seq_length args) m)) =
    graph_output (graph m).
Proof.
  intros Hao Hmode Hout Hne Hres Hw HL Hnames Hc.
  destruct (main_run h args (Some m)) as [lines H].
  rewrite (H w Hw). cbn [fst snd files]. clear H.
  unfold main_write, main_outcome.
  rewrite Hao, Hout, (transformed_no_target h args m Hmode HL Hnames), Hc.
  destruct output as [|a o]; [done|]. rewrite Hres. cbn [write_back].
  split; [reflexivity|]. split; [reflexivity|].
  split; [by apply stored_saved|]. split; reflexivity.
Qed.

Lemma main_saves_unpadded_witness :
  files (main host
              (mkArgs "speech.onnx" (Some "speech_static.onnx") 512 (-1) true false)
              {| files := {[ "speech.onnx" := m_speech ]}; stdout := [] |}).1
    !! "speech_static.onnx" = Some m_speech.
Proof.
  destruct (main_saves_unpadded host
              (mkArgs "speech.onnx" (Some "speech_static.onnx") 512 (-1) true false)
              {| files := {[ "speech.onnx" := m_speech ]}; stdout := [] |}
              "speech_static.onnx" "speech_static.onnx" m_speech) as (_ & Hfiles & _);
    [reflexivity | reflexivity | reflexivity | discriminate | reflexivity
    | reflexivity | simpl; lia | reflexivity | reflexivity |].
  rewrite Hfiles. apply lookup_insert_eq.
Defined.
